(** * tools/notion_export.py: block tree to Markdown

    A shallow embedding of the exporter.  Values decoded by [json.loads] are
    the inductive [json]; a Python exception is an [exn] carried by
    [result]; the remote service and the file system are threaded as an
    explicit state.  Characters are the code points U+0000..U+00FF; the
    interpreter's limits on sizes are modelled where a size comes from the
    data (the level of a heading). *)

From Stdlib Require Import String Ascii List ZArith Lia Bool.
From Stdlib Require Import Floats.SpecFloat.
From Stdlib Require DecimalString.
Import ListNotations.
Open Scope string_scope.
Open Scope Z_scope.

(** ** Python values and exceptions *)

#[warnings="-register-all"]
Inductive json : Type :=
| JNull
| JBool (b : bool)
| JInt (z : Z)
| JFloat (f : spec_float)
| JStr (s : string)
| JList (l : list json)
| JDict (d : list (string * json)).

Inductive exn : Type :=
| AttributeError
| TypeError
| KeyError
| IndexError
| ValueError
| URLError
| OSError
| OverflowError
| MemoryError.

Inductive result (A : Type) : Type :=
| OK (a : A)
| Err (e : exn).
Arguments OK {A} a.
Arguments Err {A} e.

Definition rbind {A B} (r : result A) (k : A -> result B) : result B :=
  match r with
  | OK a => k a
  | Err e => Err e
  end.

Declare Scope result_scope.
Delimit Scope result_scope with result.
Notation "'let?' x := r 'in' k" := (rbind r (fun x => k))
  (at level 10, x name, r at level 100, k at level 200) : result_scope.
Open Scope result_scope.

(** ** Strings *)

Definition nl : string := String (ascii_of_nat 10) "".

(** [str.isspace] on one character of the Latin-1 range. *)
Definition isspace (c : ascii) : bool :=
  let n := nat_of_ascii c in
  ((9 <=? n) && (n <=? 13) || (28 <=? n) && (n <=? 32)
   || (n =? 133) || (n =? 160))%nat.

Definition str_empty (s : string) : bool :=
  match s with
  | EmptyString => true
  | String _ _ => false
  end.

Fixpoint lstrip (s : string) : string :=
  match s with
  | EmptyString => EmptyString
  | String c s' => if isspace c then lstrip s' else s
  end.

Fixpoint rstrip (s : string) : string :=
  match s with
  | EmptyString => EmptyString
  | String c s' =>
      let r := rstrip s' in
      if str_empty r && isspace c then EmptyString else String c r
  end.

(** [s.strip()] *)
Definition strip (s : string) : string := lstrip (rstrip s).

(** [s * n] for a string [s] and an integer [n] small enough for the string
    to be built, as the indentation levels 0 and 1 of the program are. *)
Definition str_mul (s : string) (n : Z) : string :=
  Nat.iter (Z.to_nat n) (append s) "".

(** [''.join(parts)] for parts that are strings. *)
Definition join (parts : list string) : string :=
  fold_right append "" parts.

(** [s.split(sep)] for a one-character separator. *)
Fixpoint split (sep : ascii) (s : string) : list string :=
  match s with
  | EmptyString => [""]
  | String c s' =>
      if Ascii.eqb c sep then "" :: split sep s'
      else match split sep s' with
           | [] => [String c ""]
           | p :: ps => String c p :: ps
           end
  end.

Definition is_digit (c : ascii) : bool :=
  let n := nat_of_ascii c in ((48 <=? n) && (n <=? 57))%nat.

Definition digit_val (c : ascii) : Z := Z.of_nat (nat_of_ascii c) - 48.

Fixpoint digits_val (acc : Z) (s : string) : option Z :=
  match s with
  | EmptyString => Some acc
  | String c s' =>
      if is_digit c then digits_val (10 * acc + digit_val c) s' else None
  end.

(** The optional sign of a numeral: whether it is negative, and the rest. *)
Definition sign_split (s : string) : bool * string :=
  match s with
  | String "-" d => (true, d)
  | String "+" d => (false, d)
  | d => (false, d)
  end.

(** The whitespace [int] skips around a numeral: the ASCII blanks, and
    U+0085 and U+00A0 (U+001C..U+001F are blanks for [strip] only). *)
Definition int_space (c : ascii) : bool :=
  let n := nat_of_ascii c in
  ((9 <=? n) && (n <=? 13) || (n =? 32) || (n =? 133) || (n =? 160))%nat.

Fixpoint int_lstrip (s : string) : string :=
  match s with
  | EmptyString => EmptyString
  | String c s' => if int_space c then int_lstrip s' else s
  end.

Fixpoint int_rstrip (s : string) : string :=
  match s with
  | EmptyString => EmptyString
  | String c s' =>
      let r := int_rstrip s' in
      if str_empty r && int_space c then EmptyString else String c r
  end.

(** The longest numeral [int] converts (the interpreter's default). *)
Definition max_str_digits : nat := 4300.

(** [int(s)] in base ten: surrounding whitespace, an optional sign, at most
    [max_str_digits] digits.  The argument below is a component of
    [split "_"], so the digit-grouping underscores that [int] also accepts
    cannot occur in it. *)
Definition py_int (s : string) : result Z :=
  let (neg, d) := sign_split (int_lstrip (int_rstrip s)) in
  if str_empty d then Err ValueError
  else if (max_str_digits <? String.length d)%nat then Err ValueError
  else match digits_val 0 d with
       | Some z => OK (if neg then - z else z)
       | None => Err ValueError
       end.

Definition str_of_Z (z : Z) : string :=
  DecimalString.NilZero.string_of_int (Z.to_int z).

(** ** Dictionaries and truth values *)

(** A dict is the list of its items in insertion order. *)
Fixpoint lookup (k : string) (d : list (string * json)) : option json :=
  match d with
  | [] => None
  | (k', v) :: d' => if String.eqb k k' then Some v else lookup k d'
  end.

Definition has_key (k : string) (d : list (string * json)) : bool :=
  match lookup k d with
  | Some _ => true
  | None => false
  end.

(** [bool(v)] *)
Definition truthy (v : json) : bool :=
  match v with
  | JNull => false
  | JBool b => b
  | JInt z => negb (z =? 0)
  | JFloat (S754_zero _) => false
  | JFloat _ => true
  | JStr s => negb (str_empty s)
  | JList l => match l with [] => false | _ => true end
  | JDict d => match d with [] => false | _ => true end
  end.

(** [v.get(k, default)]: only a dict has the method. *)
Definition py_get (v : json) (k : string) (default : json) : result json :=
  match v with
  | JDict d =>
      OK match lookup k d with
         | Some x => x
         | None => default
         end
  | _ => Err AttributeError
  end.

(** [v[k]] for a string key [k]. *)
Definition py_getitem (v : json) (k : string) : result json :=
  match v with
  | JDict d =>
      match lookup k d with
      | Some x => OK x
      | None => Err KeyError
      end
  | _ => Err TypeError
  end.

(** The values a [for] loop over [v] visits. *)
Definition py_iter (v : json) : result (list json) :=
  match v with
  | JList l => OK l
  | JStr s => OK (map (fun c => JStr (String c "")) (list_ascii_of_string s))
  | JDict d => OK (map (fun kv => JStr (fst kv)) d)
  | _ => Err TypeError
  end.

(** [''.join(parts)]: every part has to be a string. *)
Fixpoint py_join (parts : list json) : result string :=
  match parts with
  | [] => OK ""
  | JStr s :: rest => let? r := py_join rest in OK (s ++ r)
  | _ :: _ => Err TypeError
  end.

Section Exporter.

#[local] Set Default Proof Using "Type".

(** [str(v)] for a float, a list or a dict: the interpreter's [repr], which
    the program only passes through. *)
Variable repr_other : json -> string.

(** The length of the longest string the interpreter can allocate on the
    machine it runs on. *)
Variable alloc_max : Z.

(** The largest size the interpreter can express. *)
Definition ssize_max : Z := 2 ^ 63 - 1.

(** [s * n] for a count [n] that comes from the data: the count has to fit
    the machine's index type and the string has to be allocated. *)
Definition py_repeat (s : string) (n : Z) : result string :=
  if (n <? - ssize_max - 1) || (ssize_max <? n) then Err OverflowError
  else if n <=? 0 then OK ""
  else if ssize_max <? n * Z.of_nat (String.length s) then Err OverflowError
  else if alloc_max <? n * Z.of_nat (String.length s) then Err MemoryError
  else OK (str_mul s n).

(** A replacement field [{v}] of an f-string. *)
Definition fmt (v : json) : string :=
  match v with
  | JStr s => s
  | JNull => "None"
  | JBool true => "True"
  | JBool false => "False"
  | JInt z => str_of_Z z
  | _ => repr_other v
  end.

(** ** rt_to_md *)

(** One pass of the loop body: the part appended for the run [rt]. *)
Definition rt_part (rt : json) : result json :=
  let? txt := py_get rt "plain_text" (JStr "") in
  let? ann := py_get rt "annotations" (JDict []) in
  let? code := py_get ann "code" JNull in
  let txt := if truthy code then JStr ("`" ++ fmt txt ++ "`") else txt in
  let? bold := py_get ann "bold" JNull in
  let txt := if truthy bold then JStr ("**" ++ fmt txt ++ "**") else txt in
  let? italic := py_get ann "italic" JNull in
  let txt := if truthy italic then JStr ("*" ++ fmt txt ++ "*") else txt in
  let? strikethrough := py_get ann "strikethrough" JNull in
  let txt :=
    if truthy strikethrough then JStr ("~~" ++ fmt txt ++ "~~") else txt in
  let? href := py_get rt "href" JNull in
  let txt :=
    if truthy href then JStr ("[" ++ fmt txt ++ "](" ++ fmt href ++ ")")
    else txt in
  OK txt.

Fixpoint rt_parts (runs : list json) : result (list json) :=
  match runs with
  | [] => OK []
  | rt :: rest =>
      let? p := rt_part rt in
      let? ps := rt_parts rest in
      OK (p :: ps)
  end.

Definition rt_to_md (rich_text : json) : result string :=
  let? runs := py_iter (if truthy rich_text then rich_text else JList []) in
  let? parts := rt_parts runs in
  py_join parts.


(** ** block_to_md *)

Definition json_is_str (v : json) (s : string) : bool :=
  match v with
  | JStr s' => String.eqb s' s
  | _ => false
  end.

(** [inner.get('rich_text')] rendered, for the payload [block[t]]. *)
Definition payload_text (block : json) (t : string) : result string :=
  let? inner := py_getitem block t in
  let? rich := py_get inner "rich_text" JNull in
  rt_to_md rich.

Definition block_to_md (block : json) (indent : Z) : result string :=
  let? t := py_get block "type" JNull in
  let pre := str_mul "  " indent in
  match t with
  | JStr t =>
      if prefix "heading_" t then
        let? part := match nth_error (split "_" t) 1 with
                     | Some p => OK p
                     | None => Err IndexError
                     end in
        let? lvl := py_int part in
        let? hashes := py_repeat "#" lvl in
        let? txt := payload_text block t in
        OK (hashes ++ " " ++ txt ++ nl)
      else if String.eqb t "paragraph" then
        let? txt := payload_text block t in
        OK (if str_empty (strip txt) then nl else pre ++ txt ++ nl ++ nl)
      else if String.eqb t "bulleted_list_item"
              || String.eqb t "numbered_list_item" then
        let marker := if String.eqb t "bulleted_list_item" then "-" else "1." in
        let? txt := payload_text block t in
        OK (pre ++ marker ++ " " ++ txt ++ nl)
      else if String.eqb t "to_do" then
        let? inner := py_getitem block t in
        let? checked := py_get inner "checked" (JBool false) in
        let box := if truthy checked then "x" else " " in
        let? txt := payload_text block t in
        OK (pre ++ "- [" ++ box ++ "] " ++ txt ++ nl)
      else if String.eqb t "quote" then
        let? txt := payload_text block t in
        OK ("> " ++ txt ++ nl ++ nl)
      else if String.eqb t "code" then
        let? inner := py_getitem block t in
        let? lang := py_get inner "language" (JStr "") in
        let? txt := payload_text block t in
        OK ("```" ++ fmt lang ++ nl ++ txt ++ nl ++ "```" ++ nl ++ nl)
      else if String.eqb t "child_page" then
        let? inner := py_getitem block t in
        let? title := py_get inner "title" (JStr "") in
        OK ("- " ++ fmt title ++ nl)
      else
        (* fallback *)
        let? inner := py_get block t (JDict []) in
        match inner with
        | JDict d =>
            if has_key "rich_text" d then
              let? txt := rt_to_md match lookup "rich_text" d with
                                   | Some x => x
                                   | None => JNull
                                   end in
              OK (if str_empty (strip txt) then "" else pre ++ txt ++ nl ++ nl)
            else OK ""
        | _ => OK ""
        end
  | _ => Err AttributeError
  end.


(** ** The remote service *)

(** The service as the program meets it: what the successive calls of
    [urlopen] and the decoding of the body will give, the decoded body or
    the exception raised, and the requests handed to [urlopen] so far.  The
    headers are the same for every request. *)
Record Remote : Type := mkRemote {
  pending : nat -> result json;
  requests : list (string * string)
}.

(** The file system, of which the program uses three operations.  Creating
    the directories and writing the file return normally or raise, and
    leave the file system in a state of their own in both cases. *)
Variable FS : Type.
Variable os_path_dirname : string -> string.
Variable os_makedirs : string -> FS -> result unit * FS.
Variable write_text : string -> string -> FS -> result unit * FS.

Record World : Type := mkWorld {
  remote : Remote;
  fs : FS
}.

(** A computation on a state [S]: [None] when the fuel of a loop ran out,
    otherwise the value returned or the exception raised, and the state
    reached. *)
Definition M (S A : Type) : Type := S -> option (result A * S).

Definition ret {S A} (a : A) : M S A := fun s => Some (OK a, s).

Definition bind {S A B} (m : M S A) (k : A -> M S B) : M S B :=
  fun s =>
    match m s with
    | None => None
    | Some (OK a, s') => k a s'
    | Some (Err e, s') => Some (Err e, s')
    end.

Definition lift {S A} (r : result A) : M S A :=
  fun s => Some (r, s).

Declare Scope m_scope.
Delimit Scope m_scope with M.
Notation "x <- m ;; k" := (bind m (fun x => k))
  (at level 61, m at next level, right associativity) : m_scope.
Open Scope m_scope.

(** A computation on the remote service run inside the world. *)
Definition on_remote {A} (m : M Remote A) : M World A :=
  fun w =>
    match m (remote w) with
    | None => None
    | Some (r, rm) => Some (r, mkWorld rm (fs w))
    end.

Definition on_fs (op : FS -> result unit * FS) : M World unit :=
  fun w => let (r, f) := op (fs w) in Some (r, mkWorld (remote w) f).

Definition api (path : string) : string :=
  "https://api.notion.com/v1" ++ path.

Definition http (method path : string) : M Remote json :=
  fun rm =>
    let rm' := mkRemote (fun n => pending rm (S n))
                        (requests rm ++ [(method, api path)])%list in
    Some (pending rm 0%nat, rm').

(** ** get_all_children *)

Definition children_path (block_id : json) (page_size : Z) (cursor : json)
  : string :=
  let qs := "?page_size=" ++ str_of_Z page_size
            ++ (if truthy cursor then "&start_cursor=" ++ fmt cursor else "")
  in "/blocks/" ++ fmt block_id ++ "/children" ++ qs.

(** The [while True] loop, one unit of fuel for each pass. *)
Fixpoint children_loop (fuel : nat) (block_id : json) (page_size : Z)
    (out : list json) (cursor : json) : M Remote (list json) :=
  match fuel with
  | O => fun _ => None
  | S fuel' =>
      res <- http "GET" (children_path block_id page_size cursor) ;;
      results <- lift (py_get res "results" (JList [])) ;;
      items <- lift (py_iter results) ;;
      let out := (out ++ items)%list in
      has_more <- lift (py_get res "has_more" JNull) ;;
      if negb (truthy has_more) then ret out
      else
        cursor <- lift (py_get res "next_cursor" JNull) ;;
        children_loop fuel' block_id page_size out cursor
  end.

Definition get_all_children (fuel : nat) (block_id : json) (page_size : Z)
  : M Remote (list json) :=
  children_loop fuel block_id page_size [] JNull.

(** ** export_page *)

Fixpoint append_kids (kids : list json) (md : list string)
  : result (list string) :=
  match kids with
  | [] => OK md
  | k :: rest =>
      let? s := block_to_md k 1 in
      append_kids rest (md ++ [s])%list
  end.

(** [b.get('has_children') and b.get('type') not in ('child_page',)] *)
Definition wants_children (b : json) : result bool :=
  let? hc := py_get b "has_children" JNull in
  if truthy hc then
    let? t := py_get b "type" JNull in
    OK (negb (json_is_str t "child_page"))
  else OK false.

(** One pass of the loop over the blocks of the page. *)
Definition export_block (fuel : nat) (b : json) (md : list string)
  : M Remote (list string) :=
  s <- lift (block_to_md b 0) ;;
  let md := (md ++ [s])%list in
  c <- lift (wants_children b) ;;
  if c then
    id <- lift (py_getitem b "id") ;;
    kids <- get_all_children fuel id 100 ;;
    md <- lift (append_kids kids md) ;;
    ret (md ++ [nl])%list
  else ret md.

Fixpoint export_blocks (fuel : nat) (blocks : list json) (md : list string)
  : M Remote (list string) :=
  match blocks with
  | [] => ret md
  | b :: rest =>
      md <- export_block fuel b md ;;
      export_blocks fuel rest md
  end.

Definition path_str (v : json) : result string :=
  match v with
  | JStr s => OK s
  | _ => Err TypeError
  end.

Definition export_page (fuel : nat) (page_id title out_path : json)
  : M World unit :=
  blocks <- on_remote (get_all_children fuel page_id 100) ;;
  let md := ["# " ++ fmt title ++ nl ++ nl] in
  md <- on_remote (export_blocks fuel blocks md) ;;
  p <- lift (path_str out_path) ;;
  _ <- on_fs (os_makedirs (os_path_dirname p)) ;;
  on_fs (write_text p (rstrip (join md) ++ nl)).

(** ** main *)

Inductive outcome : Type :=
| Returned
| Raised (e : exn)
| Exited (code : Z).

Record Process : Type := mkProcess {
  stdin : option json;
  stderr : string;
  world : World
}.

Fixpoint export_all (fuel : nat) (items : list (string * json))
  : M World unit :=
  match items with
  | [] => ret tt
  | (page_id, meta) :: rest =>
      title <- lift (py_getitem meta "title") ;;
      path <- lift (py_getitem meta "path") ;;
      _ <- export_page fuel (JStr page_id) title path ;;
      export_all fuel rest
  end.

(** [mapping.items()] *)
Definition py_items (v : json) : result (list (string * json)) :=
  match v with
  | JDict d => OK d
  | _ => Err AttributeError
  end.

Definition main_body (fuel : nat) (input : option json) : M World unit :=
  mapping <- lift match input with
                  | Some v => OK v
                  | None => Err ValueError
                  end ;;
  items <- lift (py_items mapping) ;;
  export_all fuel items.

Definition main (fuel : nat) (NOTION_KEY : option string)
  : Process -> option (outcome * Process) :=
  fun p =>
    let key := match NOTION_KEY with
               | Some k => JStr k
               | None => JNull
               end in
    if negb (truthy key) then
      let p := mkProcess (stdin p) (stderr p ++ "Missing NOTION_KEY" ++ nl)
                         (world p) in
      Some (Exited 2, p)
    else
      match main_body fuel (stdin p) (world p) with
      | None => None
      | Some (OK _, w) => Some (Returned, mkProcess (stdin p) (stderr p) w)
      | Some (Err e, w) => Some (Raised e, mkProcess (stdin p) (stderr p) w)
      end.


(** * Properties *)

(** ** What the claims speak of *)

(** A style flag of a run's annotations is set. *)
Definition flag (ann : list (string * json)) (k : string) : bool :=
  truthy match lookup k ann with
         | Some v => v
         | None => JNull
         end.

(** The link target of a run: its [href] when there is one, neither null
    nor empty. *)
Definition link_target (run : list (string * json)) : option string :=
  match lookup "href" run with
  | Some h => if truthy h then Some (fmt h) else None
  | None => None
  end.

Definition wrap_if (b : bool) (mark s : string) : string :=
  if b then mark ++ s ++ mark else s.

(** The nesting of section 4.1: code, bold, italic, strikethrough, link. *)
Definition styled (code bold italic strike : bool) (href : option string)
    (plain : string) : string :=
  let t := wrap_if code "`" plain in
  let t := wrap_if bold "**" t in
  let t := wrap_if italic "*" t in
  let t := wrap_if strike "~~" t in
  match href with
  | Some h => "[" ++ t ++ "](" ++ h ++ ")"
  | None => t
  end.

(** A text run as section 3 describes it, and a rich-text field holding
    such runs. *)
Definition wf_run (rt : json) : bool :=
  match rt with
  | JDict d =>
      match lookup "plain_text" d with
      | Some (JStr _) | None => true
      | Some _ => false
      end
      && match lookup "annotations" d with
         | Some (JDict _) | None => true
         | Some _ => false
         end
  | _ => false
  end.

Definition wf_rich_text (v : json) : bool :=
  match v with
  | JNull => true
  | JList l => forallb wf_run l
  | _ => false
  end.

(** The block types [block_to_md] has a branch for. *)
Definition recognized (t : string) : bool :=
  prefix "heading_" t
  || existsb (String.eqb t)
       ["paragraph"; "bulleted_list_item"; "numbered_list_item"; "to_do";
        "quote"; "code"; "child_page"].



(** A response of the child-listing endpoint: an object whose [results],
    when there are any, are a list. *)
Definition page_ok (res : json) : bool :=
  match res with
  | JDict d =>
      match lookup "results" d with
      | Some (JList _) | None => true
      | Some _ => false
      end
  | _ => false
  end.

Definition results_of (res : json) : list json :=
  match res with
  | JDict d =>
      match lookup "results" d with
      | Some (JList l) => l
      | _ => []
      end
  | _ => []
  end.

Definition has_more (res : json) : bool :=
  match res with
  | JDict d => truthy match lookup "has_more" d with
                      | Some v => v
                      | None => JNull
                      end
  | _ => false
  end.

Definition next_cursor (res : json) : json :=
  match res with
  | JDict d =>
      match lookup "next_cursor" d with
      | Some c => c
      | None => JNull
      end
  | _ => JNull
  end.

(** The responses [rs] are the next ones the service gives, in this
    order. *)
Fixpoint serves (p : nat -> result json) (rs : list json) : Prop :=
  match rs with
  | [] => True
  | r :: rs' => p 0%nat = OK r /\ serves (fun n => p (S n)) rs'
  end.

(** The request that lists the children of a block: the method, and the
    URL of the children endpoint with the page size and, after a page that
    gave a cursor, that cursor. *)
Definition request (block_id : json) (page_size : Z) (cursor : json)
  : string * string :=
  ("GET",
   "https://api.notion.com/v1/blocks/" ++ fmt block_id
   ++ "/children?page_size=" ++ str_of_Z page_size
   ++ (if truthy cursor then "&start_cursor=" ++ fmt cursor else "")).

(** The child reports children and is not a child-page reference. *)
Definition fetch_cond (b : list (string * json)) : bool :=
  truthy match lookup "has_children" b with
         | Some v => v
         | None => JNull
         end
  && negb (json_is_str match lookup "type" b with
                       | Some t => t
                       | None => JNull
                       end "child_page").

(** The blocks [kids], each rendered at indentation level 1. *)
Fixpoint render_kids (kids : list json) : result (list string) :=
  match kids with
  | [] => OK []
  | k :: rest =>
      let? s := block_to_md k 1 in
      let? ss := render_kids rest in
      OK (s :: ss)
  end.

(** The identifier under which the children of [b] are requested. *)
Definition id_of (b : json) : json :=
  match py_getitem b "id" with
  | OK id => id
  | Err _ => JNull
  end.

(** The block types with a branch of their own, the headings apart. *)
Definition named_types : list string :=
  ["paragraph"; "bulleted_list_item"; "numbered_list_item"; "to_do";
   "quote"; "code"; "child_page"].

(** A field of a payload, null when the payload lacks it. *)
Definition field (d : list (string * json)) (k : string) : json :=
  match lookup k d with
  | Some v => v
  | None => JNull
  end.

Definition ends_with_nl (s : string) : Prop := exists s', s = s' ++ nl.

(** The exception a response makes [get_all_children] raise, if any: the
    request failed, the response is not an object, or its [results] cannot
    be iterated. *)
Definition page_error (o : result json) : option exn :=
  match o with
  | Err e => Some e
  | OK res =>
      match py_get res "results" (JList []) with
      | Err e => Some e
      | OK results =>
          match py_iter results with
          | Err e => Some e
          | OK _ => None
          end
      end
  end.

(** The URL every request for the children of a block begins with. *)
Definition endpoint (block_id : json) (page_size : Z) : string :=
  "https://api.notion.com/v1/blocks/" ++ fmt block_id
  ++ "/children?page_size=" ++ str_of_Z page_size.

(** The blocks, each rendered at the indentation level [indent]. *)
Fixpoint render_all (indent : Z) (blocks : list json)
  : result (list string) :=
  match blocks with
  | [] => OK []
  | b :: rest =>
      let? s := block_to_md b indent in
      let? ss := render_all indent rest in
      OK (s :: ss)
  end.

(** What a computation that appends to a buffer gives when started from the
    buffer [md], from what it gives started from the empty one. *)
Definition onto {S : Type} (md : list string)
    (o : option (result (list string) * S))
  : option (result (list string) * S) :=
  match o with
  | Some (OK out, s) => Some (OK (md ++ out)%list, s)
  | other => other
  end.

(** The walk over the direct children of a page that the export is to
    perform, from the state of the service [rm] to the state [rm'], giving
    the renderings [out]: a child that does not both report children and
    differ from a child-page reference is rendered at level 0 and nothing is
    fetched; for one that does, its children are fetched, rendered at level
    1 and followed by a blank line.  Nothing is fetched for these. *)
Inductive page_walk (fuel : nat)
  : list json -> Remote -> list string -> Remote -> Prop :=
| walk_done (rm : Remote) : page_walk fuel [] rm [] rm
| walk_leaf (b : list (string * json)) (bs : list json) (rm : Remote)
    (top : string) (out : list string) (rm' : Remote) :
    fetch_cond b = false ->
    block_to_md (JDict b) 0 = OK top ->
    page_walk fuel bs rm out rm' ->
    page_walk fuel (JDict b :: bs) rm (top :: out) rm'
| walk_parent (b : list (string * json)) (bs : list json) (rm : Remote)
    (top : string) (id : json) (kids : list json) (rm1 : Remote)
    (ks out : list string) (rm' : Remote) :
    fetch_cond b = true ->
    block_to_md (JDict b) 0 = OK top ->
    lookup "id" b = Some id ->
    get_all_children fuel id 100 rm = Some (OK kids, rm1) ->
    render_kids kids = OK ks ->
    page_walk fuel bs rm1 out rm' ->
    page_walk fuel (JDict b :: bs) rm (top :: ks ++ nl :: out)%list rm'.

(** ** Sample inputs *)

Definition sample_repr (_ : json) : string := "<object>".

Definition no_styles : list (string * json) :=
  [("bold", JBool false); ("italic", JBool false);
   ("strikethrough", JBool false); ("code", JBool false)].

Definition plain_run (txt : string) : list (string * json) :=
  [("plain_text", JStr txt); ("annotations", JDict no_styles);
   ("href", JNull)].

Definition text_run (txt : string) : json := JDict (plain_run txt).

Definition all_styles : list (string * json) :=
  [("bold", JBool true); ("italic", JBool true);
   ("strikethrough", JBool true); ("code", JBool true)].

Definition styled_run : list (string * json) :=
  [("plain_text", JStr "hi"); ("annotations", JDict all_styles);
   ("href", JStr "http://x")].

Definition block_of (t : string) (runs : list json) : list (string * json) :=
  [("type", JStr t); (t, JDict [("rich_text", JList runs)])].

Definition page_of (results : list json) (more : bool) (cursor : json)
  : json :=
  JDict [("results", JList results); ("has_more", JBool more);
         ("next_cursor", cursor)].

(** Three pages: a cursor after the first, none after the second. *)
Definition three_pages (n : nat) : result json :=
  match n with
  | 0%nat => OK (page_of [JInt 1; JInt 2] true (JStr "c1"))
  | 1%nat => OK (page_of [JInt 3] true JNull)
  | 2%nat => OK (page_of [JInt 4] false JNull)
  | _ => Err URLError
  end.

Definition parent_block : list (string * json) :=
  [("type", JStr "bulleted_list_item"); ("id", JStr "b1");
   ("has_children", JBool true);
   ("bulleted_list_item", JDict [("rich_text", JList [text_run "top"])])].

Definition subpage_block : list (string * json) :=
  [("type", JStr "child_page"); ("id", JStr "b2");
   ("has_children", JBool true);
   ("child_page", JDict [("title", JStr "Sub")])].

Definition kid_block : json :=
  JDict (block_of "paragraph" [text_run "kid"]).

Definition kids_page (n : nat) : result json :=
  match n with
  | 0%nat => OK (page_of [kid_block] false JNull)
  | _ => Err URLError
  end.

Definition todo_block : list (string * json) :=
  [("type", JStr "to_do");
   ("to_do", JDict [("rich_text", JList [text_run "buy"]);
                    ("checked", JBool true)])].

Definition code_block : list (string * json) :=
  [("type", JStr "code");
   ("code", JDict [("rich_text", JList [text_run "x = 1"]);
                   ("language", JStr "python")])].

(** One page reporting more, then a failed request. *)
Definition broken_pages (n : nat) : result json :=
  match n with
  | 0%nat => OK (page_of [JInt 1] true (JStr "c1"))
  | _ => Err URLError
  end.

Definition orphan_block : list (string * json) :=
  [("type", JStr "quote"); ("has_children", JBool true);
   ("quote", JDict [("rich_text", JList [text_run "q"])])].

(** A file system that records the files written, newest first. *)
Definition sample_dirname (_ : string) : string := "out".

Definition sample_makedirs (_ : string) (f : list (string * string))
  : result unit * list (string * string) := (OK tt, f).

Definition sample_write (p content : string) (f : list (string * string))
  : result unit * list (string * string) := (OK tt, (p, content) :: f).

Definition sample_alloc : Z := 2 ^ 31.

(** The listing of a page with a list item that has one child and a
    sub-page that reports children, then the listing of the item. *)
Definition page_script (n : nat) : result json :=
  match n with
  | 0%nat => OK (page_of [JDict parent_block; JDict subpage_block] false JNull)
  | 1%nat => OK (page_of [kid_block] false JNull)
  | _ => Err URLError
  end.

(** The listing of a page whose second block asks for children without
    having an id. *)
Definition orphan_script (n : nat) : result json :=
  match n with
  | 0%nat => OK (page_of [JDict todo_block; JDict orphan_block] false JNull)
  | _ => Err URLError
  end.

(** ** Strings *)

Lemma append_nil_r (s : string) : s ++ "" = s.
Proof.
  induction s as [|c s IH]; simpl; [reflexivity | now rewrite IH].
Qed.

Lemma str_app_assoc (a b c : string) : (a ++ b) ++ c = a ++ b ++ c.
Proof.
  induction a as [|x a IH]; cbn; [reflexivity | now rewrite IH].
Qed.

Lemma rstrip_blank (s : string) :
  str_empty (rstrip s) = true <->
  forallb isspace (list_ascii_of_string s) = true.
Proof.
  induction s as [|c s IH]; simpl.
  - split; reflexivity.
  - destruct (str_empty (rstrip s)) eqn:E; simpl.
    + destruct (isspace c); simpl; [exact IH | split; discriminate].
    + rewrite andb_true_iff. split; [discriminate |].
      intros [_ H]. apply IH in H. discriminate.
Qed.

Lemma lstrip_blank (s : string) :
  str_empty (lstrip s) = true <->
  forallb isspace (list_ascii_of_string s) = true.
Proof.
  induction s as [|c s IH]; simpl.
  - split; reflexivity.
  - destruct (isspace c); simpl; [exact IH | split; discriminate].
Qed.

Lemma forallb_isspace_rstrip (s : string) :
  forallb isspace (list_ascii_of_string s) = true ->
  rstrip s = "".
Proof.
  intros H. apply rstrip_blank in H.
  destruct (rstrip s); [reflexivity | discriminate].
Qed.

(** [s.strip()] is empty exactly when [s] holds whitespace only. *)
Lemma strip_blank (s : string) :
  str_empty (strip s) = true <->
  forallb isspace (list_ascii_of_string s) = true.
Proof.
  unfold strip. split.
  - intros H. apply lstrip_blank in H.
    destruct (str_empty (rstrip s)) eqn:E.
    + now apply rstrip_blank.
    + exfalso. revert H E. clear.
      induction s as [|c s IH]; simpl; [discriminate |].
      destruct (str_empty (rstrip s)) eqn:E; simpl.
      * destruct (isspace c) eqn:Ec; simpl; [discriminate |].
        rewrite Ec. discriminate.
      * rewrite andb_true_iff. intros [_ H] _. now apply IH.
  - intros H. now rewrite (forallb_isspace_rstrip s H).
Qed.

(** ** rt_to_md *)

Lemma rt_part_styled (run ann : list (string * json)) (txt : string) :
  py_get (JDict run) "plain_text" (JStr "") = OK (JStr txt) ->
  py_get (JDict run) "annotations" (JDict []) = OK (JDict ann) ->
  rt_part (JDict run) =
  OK (JStr (styled (flag ann "code") (flag ann "bold") (flag ann "italic")
                   (flag ann "strikethrough") (link_target run) txt)).
Proof.
  intros Hp Ha. unfold rt_part.
  rewrite Hp, Ha. cbn [rbind py_get].
  unfold styled, link_target, flag, wrap_if.
  destruct (truthy match lookup "code" ann with Some v => v | None => _ end),
           (truthy match lookup "bold" ann with Some v => v | None => _ end),
           (truthy match lookup "italic" ann with Some v => v | None => _ end),
           (truthy match lookup "strikethrough" ann with
                   | Some v => v | None => _ end);
    cbn [fmt]; destruct (lookup "href" run) as [h|]; cbn [truthy];
    try destruct (truthy h); reflexivity.
Qed.

Lemma rt_to_md_single (rt : json) (s : string) :
  rt_part rt = OK (JStr s) ->
  rt_to_md (JList [rt]) = OK s.
Proof.
  intros H. unfold rt_to_md. cbn [truthy py_iter rbind rt_parts].
  rewrite H. cbn. now rewrite append_nil_r.
Qed.


(** C8. A run with no style flag set and no href is rendered as its plain
    text, unchanged. *)
Theorem rt_to_md_plain_identity (run ann : list (string * json))
    (txt : string) :
  lookup "plain_text" run = Some (JStr txt) ->
  py_get (JDict run) "annotations" (JDict []) = OK (JDict ann) ->
  flag ann "code" = false ->
  flag ann "bold" = false ->
  flag ann "italic" = false ->
  flag ann "strikethrough" = false ->
  link_target run = None ->
  rt_to_md (JList [JDict run]) = OK txt.
Proof.
  intros Hp Ha Hc Hb Hi Hs Hh. apply rt_to_md_single.
  rewrite (rt_part_styled run ann txt), Hc, Hb, Hi, Hs, Hh;
    [reflexivity | cbn; now rewrite Hp | exact Ha].
Qed.


Lemma rt_part_wf (rt : json) :
  wf_run rt = true -> exists s, rt_part rt = OK (JStr s).
Proof.
  destruct rt as [| | | | |l|d]; try discriminate. cbn [wf_run].
  rewrite andb_true_iff. intros [Hp Ha].
  assert (exists txt, py_get (JDict d) "plain_text" (JStr "") = OK (JStr txt))
    as [txt Ht].
  { cbn. destruct (lookup "plain_text" d) as [[]|]; try discriminate;
      eexists; reflexivity. }
  assert (exists ann,
             py_get (JDict d) "annotations" (JDict []) = OK (JDict ann))
    as [ann Hann].
  { cbn. destruct (lookup "annotations" d) as [[]|]; try discriminate;
      eexists; reflexivity. }
  eexists. now apply (rt_part_styled d ann txt).
Qed.

Lemma rt_parts_wf (l : list json) :
  forallb wf_run l = true ->
  exists ss, rt_parts l = OK (map JStr ss).
Proof.
  induction l as [|rt l IH]; cbn [forallb rt_parts].
  - intros _. now exists [].
  - rewrite andb_true_iff. intros [H1 H2].
    destruct (rt_part_wf rt H1) as [s Hs], (IH H2) as [ss Hss].
    exists (s :: ss). now rewrite Hs, Hss.
Qed.

Lemma py_join_strs (ss : list string) : py_join (map JStr ss) = OK (join ss).
Proof.
  induction ss as [|s ss IH]; cbn; [reflexivity | now rewrite IH].
Qed.

(** A rich-text field of well-formed runs always renders. *)
Lemma rt_to_md_total (v : json) :
  wf_rich_text v = true -> exists s, rt_to_md v = OK s.
Proof.
  destruct v as [| | | | |l|d]; try discriminate; cbn [wf_rich_text].
  - intros _. now exists "".
  - intros H. destruct (rt_parts_wf l H) as [ss Hss].
    exists (join ss). unfold rt_to_md.
    destruct l as [|rt l]; [destruct ss; [reflexivity | discriminate] |].
    cbn [truthy py_iter rbind]. rewrite Hss. cbn [rbind].
    apply py_join_strs.
Qed.

(** ** block_to_md *)

Lemma recognized_false (t : string) :
  recognized t = false ->
  prefix "heading_" t = false /\
  (t =? "paragraph")%string = false /\
  (t =? "bulleted_list_item")%string = false /\
  (t =? "numbered_list_item")%string = false /\
  (t =? "to_do")%string = false /\
  (t =? "quote")%string = false /\
  (t =? "code")%string = false /\
  (t =? "child_page")%string = false.
Proof.
  unfold recognized. cbn [existsb]. rewrite !orb_false_iff.
  intros (H0 & H1 & H2 & H3 & H4 & H5 & H6 & H7 & _).
  repeat split; assumption.
Qed.

(** The fallback branch, reached by every type without a branch of its
    own. *)
Lemma block_to_md_fallback (b : list (string * json)) (t : string)
    (indent : Z) :
  recognized t = false ->
  lookup "type" b = Some (JStr t) ->
  block_to_md (JDict b) indent =
  match lookup t b with
  | Some (JDict d) =>
      match lookup "rich_text" d with
      | Some rich =>
          let? txt := rt_to_md rich in
          OK (if str_empty (strip txt) then ""
              else str_mul "  " indent ++ txt ++ nl ++ nl)
      | None => OK ""
      end
  | _ => OK ""
  end.
Proof.
  intros Hr Ht. apply recognized_false in Hr.
  destruct Hr as (H0 & H1 & H2 & H3 & H4 & H5 & H6 & H7).
  unfold block_to_md. cbn [py_get rbind]. rewrite Ht.
  rewrite H0, H1, H2, H3, H4, H5, H6, H7. cbn [orb].
  destruct (lookup t b) as [[| | | | |l|d]|]; try reflexivity.
  - unfold has_key. destruct (lookup "rich_text" d); reflexivity.
Qed.


(** C4, as amended.  A block of an unrecognized type never makes
    [block_to_md] raise when the rich-text field of its payload, if there is
    one, is null or a list of well-formed text runs: the result is the empty
    string or the indented text followed by a blank line. *)
Theorem block_to_md_unknown_total (b : list (string * json)) (t : string)
    (indent : Z) :
  recognized t = false ->
  lookup "type" b = Some (JStr t) ->
  (forall d rich,
      lookup t b = Some (JDict d) -> lookup "rich_text" d = Some rich ->
      wf_rich_text rich = true) ->
  block_to_md (JDict b) indent = OK ""
  \/ exists txt,
       str_empty (strip txt) = false /\
       block_to_md (JDict b) indent =
       OK (str_mul "  " indent ++ txt ++ nl ++ nl).
Proof.
  intros Hr Ht Hwf. rewrite (block_to_md_fallback b t indent Hr Ht).
  destruct (lookup t b) as [[| | | | |l|d]|]; try (left; reflexivity).
  destruct (lookup "rich_text" d) as [rich|] eqn:Hrich;
    [| left; reflexivity].
  destruct (rt_to_md_total rich (Hwf d rich eq_refl Hrich)) as [txt Htxt].
  rewrite Htxt. cbn [rbind].
  destruct (str_empty (strip txt)) eqn:E; [left; reflexivity |].
  right. exists txt. split; [exact E | reflexivity].
Qed.

(** C5. A paragraph whose rendered text is whitespace only is one newline,
    whatever the indentation; otherwise it is the indentation prefix, the
    text and two newlines. *)
Theorem paragraph_md (b : list (string * json)) (inner rich : json)
    (txt : string) (indent : Z) :
  lookup "type" b = Some (JStr "paragraph") ->
  lookup "paragraph" b = Some inner ->
  py_get inner "rich_text" JNull = OK rich ->
  rt_to_md rich = OK txt ->
  (forallb isspace (list_ascii_of_string txt) = true ->
   block_to_md (JDict b) indent = OK nl)
  /\ (strip txt <> "" ->
      block_to_md (JDict b) indent =
      OK (str_mul "  " indent ++ txt ++ nl ++ nl)).
Proof.
  intros Ht Hp Hrich Htxt.
  assert (block_to_md (JDict b) indent =
          OK (if str_empty (strip txt) then nl
              else str_mul "  " indent ++ txt ++ nl ++ nl)) as E.
  { unfold block_to_md, payload_text. cbn [py_get py_getitem rbind].
    rewrite Ht. cbn [prefix String.eqb Ascii.eqb Bool.eqb].
    cbn [py_getitem]. rewrite Hp. cbn [rbind]. rewrite Hrich. cbn [rbind].
    now rewrite Htxt. }
  rewrite E. split.
  - intros H. apply strip_blank in H. now rewrite H.
  - intros H. destruct (strip txt); [congruence | reflexivity].
Qed.

(** C6. In the fallback branch a payload with a rich-text field gives the
    empty string when the rendered text trims to empty and the indentation
    prefix, the text and two newlines otherwise; a payload without a
    rich-text field gives the empty string. *)
Theorem fallback_md (b : list (string * json)) (t : string) (indent : Z) :
  recognized t = false ->
  lookup "type" b = Some (JStr t) ->
  (forall d rich txt,
      lookup t b = Some (JDict d) -> lookup "rich_text" d = Some rich ->
      rt_to_md rich = OK txt ->
      block_to_md (JDict b) indent =
      OK (if str_empty (strip txt) then ""
          else str_mul "  " indent ++ txt ++ nl ++ nl))
  /\ ((forall d, lookup t b = Some (JDict d) ->
                 lookup "rich_text" d = None) ->
      block_to_md (JDict b) indent = OK "").
Proof.
  intros Hr Ht. rewrite (block_to_md_fallback b t indent Hr Ht). split.
  - intros d rich txt Hd Hrich Htxt. rewrite Hd, Hrich, Htxt. reflexivity.
  - intros H. destruct (lookup t b) as [[| | | | |l|d]|]; try reflexivity.
    now rewrite (H d eq_refl).
Qed.













(** ** get_all_children *)

Lemma children_loop_step (fuel : nat) (id : json) (ps : Z)
    (out : list json) (cursor : json) (rm : Remote) (res : json) :
  pending rm 0%nat = OK res ->
  page_ok res = true ->
  children_loop (S fuel) id ps out cursor rm =
  let rm1 := mkRemote (fun n => pending rm (S n))
                      (requests rm ++ [request id ps cursor])%list in
  if has_more res
  then children_loop fuel id ps (out ++ results_of res)%list
                     (next_cursor res) rm1
  else Some (OK (out ++ results_of res)%list, rm1).
Proof.
  intros Hp Hok. cbn [children_loop]. unfold bind, lift, ret, http.
  rewrite Hp.
  destruct res as [| | | | | |d]; try discriminate Hok.
  cbn [page_ok] in Hok.
  cbn [py_get results_of has_more next_cursor request].
  destruct (lookup "results" d) as [[| | | | |l|]|]; try discriminate Hok;
    cbn [py_iter];
    destruct (truthy match lookup "has_more" d with
                     | Some v => v | None => JNull end);
    reflexivity.
Qed.

Lemma children_loop_pages (pages : list json) :
  forall (last : json) (fuel : nat) (id : json) (ps : Z) (out : list json)
         (cursor : json) (rm : Remote),
    serves (pending rm) (pages ++ [last]) ->
    forallb (fun r => page_ok r && has_more r) pages = true ->
    page_ok last = true -> has_more last = false ->
    (length pages < fuel)%nat ->
    exists rm',
      children_loop fuel id ps out cursor rm =
      Some (OK (out ++ concat (map results_of (pages ++ [last])))%list, rm')
      /\ requests rm' =
         (requests rm
          ++ map (request id ps) (cursor :: map next_cursor pages))%list
      /\ forall n, pending rm' n = pending rm (S (length pages) + n)%nat.
Proof.
  induction pages as [|r pages IH];
    intros last fuel id ps out cursor rm Hs Hall Hok Hlast Hfuel;
    (destruct fuel as [|fuel]; [cbn in Hfuel; lia |]);
    destruct Hs as [H0 Hs].
  - rewrite (children_loop_step _ _ _ _ _ _ _ H0 Hok), Hlast. cbn zeta.
    eexists. split; [| split].
    + cbn. now rewrite app_nil_r.
    + reflexivity.
    + reflexivity.
  - cbn [forallb] in Hall. apply andb_true_iff in Hall as [Hr Hall].
    apply andb_true_iff in Hr as [Hrok Hmore].
    rewrite (children_loop_step _ _ _ _ _ _ _ H0 Hrok), Hmore. cbn zeta.
    cbn [length] in Hfuel.
    destruct (IH last fuel id ps (out ++ results_of r)%list (next_cursor r)
                 (mkRemote (fun n => pending rm (S n))
                           (requests rm ++ [request id ps cursor])%list))
      as (rm' & Hrun & Hreq & Hpend);
      [exact Hs | exact Hall | exact Hok | exact Hlast | lia |].
    exists rm'. split; [| split].
    + rewrite Hrun. cbn [app map concat]. now rewrite <- app_assoc.
    + rewrite Hreq. cbn [requests map]. now rewrite <- app_assoc.
    + intros n. rewrite Hpend. reflexivity.
Qed.

(** C3. When the service answers with the pages [pages] and then [last],
    the first to report no further page, [get_all_children] returns the
    results of these pages concatenated in the order received, having sent
    one request for each of them, each carrying the cursor of the page
    before; with no page before [last] this is the results of that page and
    a single request. *)
Theorem get_all_children_concat (fuel : nat) (id : json) (ps : Z)
    (rm : Remote) (pages : list json) (last : json) :
  serves (pending rm) (pages ++ [last]) ->
  forallb (fun r => page_ok r && has_more r) pages = true ->
  page_ok last = true -> has_more last = false ->
  (length pages < fuel)%nat ->
  exists rm',
    get_all_children fuel id ps rm =
    Some (OK (concat (map results_of (pages ++ [last]))), rm')
    /\ requests rm' =
       (requests rm ++ map (request id ps) (JNull :: map next_cursor pages))%list
    /\ (pages = [] ->
        get_all_children fuel id ps rm = Some (OK (results_of last), rm')
        /\ requests rm' = (requests rm ++ [request id ps JNull])%list).
Proof.
  intros Hs Hall Hok Hlast Hfuel.
  destruct (children_loop_pages pages last fuel id ps [] JNull rm
              Hs Hall Hok Hlast Hfuel) as (rm' & Hrun & Hreq & _).
  exists rm'. unfold get_all_children. split; [exact Hrun |].
  split; [exact Hreq |].
  intros ->. rewrite Hrun, Hreq. cbn. now rewrite app_nil_r.
Qed.


Lemma children_loop_running (pages : list json) :
  forall (fuel : nat) (id : json) (ps : Z) (out : list json) (cursor : json)
         (rm : Remote),
    serves (pending rm) pages ->
    forallb (fun r => page_ok r && has_more r) pages = true ->
    (fuel <= length pages)%nat ->
    children_loop fuel id ps out cursor rm = None.
Proof.
  induction pages as [|r pages IH]; intros fuel id ps out cursor rm Hs Hall Hf;
    (destruct fuel as [|fuel]; [reflexivity |]); cbn [length] in Hf;
    [lia |].
  destruct Hs as [H0 Hs]. cbn [forallb] in Hall.
  apply andb_true_iff in Hall as [Hr Hall].
  apply andb_true_iff in Hr as [Hrok Hmore].
  rewrite (children_loop_step _ _ _ _ _ _ _ H0 Hrok), Hmore. cbn zeta.
  apply IH; [exact Hs | exact Hall | lia].
Qed.

Lemma children_loop_diverges (fuel : nat) :
  forall (id : json) (ps : Z) (out : list json) (cursor : json)
         (p : nat -> result json) (reqs : list (string * string)),
    (forall n, exists res,
        p n = OK res /\ page_ok res = true /\ has_more res = true) ->
    children_loop fuel id ps out cursor (mkRemote p reqs) = None.
Proof.
  induction fuel as [|fuel IH]; intros id ps out cursor p reqs Hall;
    [reflexivity |].
  destruct (Hall 0%nat) as (res & H0 & Hok & Hmore).
  rewrite (children_loop_step fuel id ps out cursor (mkRemote p reqs) res
             H0 Hok), Hmore.
  cbn zeta. apply IH. intros n. apply (Hall (S n)).
Qed.

Lemma request_no_cursor (id : json) (ps : Z) (cursor : json) :
  truthy cursor = false -> request id ps cursor = request id ps JNull.
Proof.
  intros H. unfold request, children_path. now rewrite H.
Qed.

(** C10. Each pass of the loop sends one request, and the loop stops at the
    first response whose [has_more] is false: after the pages [pages], which
    all report more, and the page [last], which does not, exactly
    [length pages + 1] requests were sent and the loop is still running
    after any smaller number of passes.  A cursor that is null gives the
    request without [start_cursor], the one sent first.  Against responses
    that all report more the loop never stops. *)
Theorem get_all_children_fetches (id : json) (ps : Z) (rm : Remote) :
  (forall fuel pages last,
      serves (pending rm) (pages ++ [last]) ->
      forallb (fun r => page_ok r && has_more r) pages = true ->
      page_ok last = true -> has_more last = false ->
      ((length pages < fuel)%nat ->
       exists out rm',
         get_all_children fuel id ps rm = Some (OK out, rm')
         /\ requests rm' =
            (requests rm
             ++ map (request id ps) (JNull :: map next_cursor pages))%list
         /\ length (requests rm')
            = (length (requests rm) + S (length pages))%nat)
      /\ ((fuel <= length pages)%nat ->
          get_all_children fuel id ps rm = None))
  /\ (forall cursor,
         truthy cursor = false -> request id ps cursor = request id ps JNull)
  /\ ((forall n, exists res,
          pending rm n = OK res /\ page_ok res = true
          /\ has_more res = true) ->
      forall fuel, get_all_children fuel id ps rm = None).
Proof.
  split; [| split].
  - intros fuel pages last Hs Hall Hok Hlast. split.
    + intros Hfuel.
      destruct (children_loop_pages pages last fuel id ps [] JNull rm
                  Hs Hall Hok Hlast Hfuel) as (rm' & Hrun & Hreq & _).
      eexists; exists rm'. split; [exact Hrun |]. split; [exact Hreq |].
      rewrite Hreq, length_app. cbn [length map].
      now rewrite length_map, length_map.
    + intros Hfuel. unfold get_all_children.
      apply (children_loop_running pages); [| exact Hall | exact Hfuel].
      clear - Hs. revert Hs. generalize (pending rm).
      induction pages as [|r pages IH]; intros p Hs; [exact I |].
      destruct Hs as [H0 Hs]. split; [exact H0 | now apply IH].
  - apply request_no_cursor.
  - intros Hall fuel. unfold get_all_children. destruct rm as [p reqs].
    now apply children_loop_diverges.
Qed.


(** ** export_page *)

Lemma children_loop_requests (fuel : nat) :
  forall (id : json) (ps : Z) (out : list json) (cursor : json)
         (rm : Remote) (r : result (list json)) (rm' : Remote),
    children_loop fuel id ps out cursor rm = Some (r, rm') ->
    exists cs,
      requests rm' = (requests rm ++ map (request id ps) (cursor :: cs))%list.
Proof.
  induction fuel as [|fuel IH]; intros id ps out cursor rm r rm' H;
    [discriminate H |].
  cbn [children_loop] in H. unfold bind, lift, ret, http in H.
  destruct (pending rm 0%nat) as [res|];
    [| injection H as _ <-; now exists []].
  destruct (py_get res "results" (JList [])) as [results|];
    [| injection H as _ <-; now exists []].
  destruct (py_iter results) as [items|];
    [| injection H as _ <-; now exists []].
  destruct (py_get res "has_more" JNull) as [more|];
    [| injection H as _ <-; now exists []].
  destruct (negb (truthy more)); [injection H as _ <-; now exists [] |].
  destruct (py_get res "next_cursor" JNull) as [c|];
    [| injection H as _ <-; now exists []].
  apply IH in H as [cs Hcs]. exists (c :: cs).
  rewrite Hcs. cbn [requests map]. now rewrite <- app_assoc.
Qed.

Lemma wants_children_cond (b : list (string * json)) :
  wants_children (JDict b) = OK (fetch_cond b).
Proof.
  unfold wants_children, fetch_cond. cbn [py_get rbind].
  destruct (truthy match lookup "has_children" b with
                   | Some v => v | None => JNull end); reflexivity.
Qed.

Lemma append_kids_render (kids : list json) :
  forall md,
    append_kids kids md =
    let? ks := render_kids kids in OK (md ++ ks)%list.
Proof.
  induction kids as [|k kids IH]; intros md; cbn [append_kids render_kids].
  - cbn. now rewrite app_nil_r.
  - destruct (block_to_md k 1) as [s|e]; cbn [rbind]; [| reflexivity].
    rewrite IH. destruct (render_kids kids) as [ss|e]; cbn [rbind];
      [| reflexivity].
    now rewrite <- app_assoc.
Qed.

Lemma export_block_unfold (fuel : nat) (b : list (string * json))
    (md : list string) (top : string) (rm : Remote) :
  block_to_md (JDict b) 0 = OK top ->
  export_block fuel (JDict b) md rm =
  if fetch_cond b
  then (id <- lift (py_getitem (JDict b) "id") ;;
        kids <- get_all_children fuel id 100 ;;
        md' <- lift (append_kids kids (md ++ [top])%list) ;;
        ret (md' ++ [nl])%list) rm
  else Some (OK (md ++ [top])%list, rm).
Proof.
  intros Htop. unfold export_block. unfold bind at 1, lift at 1.
  rewrite Htop. unfold bind at 1, lift at 1.
  rewrite wants_children_cond. destruct (fetch_cond b); reflexivity.
Qed.

(** One pass of the loop: when [b] does not both report children and
    differ from a child-page reference, the pass appends its rendering and
    sends no request; when it does, the pass fetches the children of [b],
    appends their renderings at indentation level 1 and then a blank line.
    The requests of the pass are for the children of [b] itself. *)
Lemma export_block_children (fuel : nat) (b : list (string * json))
    (md : list string) (top : string) (rm : Remote) :
  block_to_md (JDict b) 0 = OK top ->
  (fetch_cond b = false ->
   export_block fuel (JDict b) md rm = Some (OK (md ++ [top])%list, rm))
  /\ (fetch_cond b = true ->
      forall id kids rm' ks,
        lookup "id" b = Some id ->
        get_all_children fuel id 100 rm = Some (OK kids, rm') ->
        render_kids kids = OK ks ->
        export_block fuel (JDict b) md rm =
        Some (OK (md ++ [top] ++ ks ++ [nl])%list, rm'))
  /\ (forall r rm',
         export_block fuel (JDict b) md rm = Some (r, rm') ->
         exists cursors,
           requests rm' =
           (requests rm
            ++ map (request match lookup "id" b with
                            | Some id => id
                            | None => JNull
                            end 100) cursors)%list
           /\ (cursors <> [] <->
               fetch_cond b = true /\ lookup "id" b <> None)).
Proof.
  intros Htop. rewrite (export_block_unfold fuel b md top rm Htop).
  split; [| split].
  - intros ->. reflexivity.
  - intros -> id kids rm' ks Hid Hkids Hks.
    unfold bind, lift, ret. cbn [py_getitem]. rewrite Hid, Hkids.
    rewrite append_kids_render, Hks. cbn [rbind].
    now rewrite <- !app_assoc.
  - intros r rm'. destruct (fetch_cond b).
    + unfold bind at 1, lift at 1. cbn [py_getitem].
      destruct (lookup "id" b) as [id|].
      * unfold bind at 1. unfold get_all_children.
        destruct (children_loop fuel id 100 [] JNull rm) as [[r1 rm1]|] eqn:Hl;
          [| discriminate].
        apply children_loop_requests in Hl as [cs Hcs].
        intros H. exists (JNull :: cs).
        assert (rm' = rm1) as ->.
        { destruct r1 as [kids|e]; [| congruence].
          unfold bind, lift, ret in H.
          destruct (append_kids kids (md ++ [top])); congruence. }
        split; [exact Hcs |].
        split; [intros _; split; congruence | discriminate].
      * intros H. injection H as _ <-. exists [].
        split; [cbn; now rewrite app_nil_r |].
        split; [congruence | intros [_ H]; congruence].
    + intros H. injection H as _ <-. exists [].
      split; [cbn; now rewrite app_nil_r |].
      split; [congruence | intros [H _]; discriminate].
Qed.


(** The requests of one pass are for the children of the block itself. *)
Lemma export_block_requests (fuel : nat) (b : json) (md : list string)
    (rm : Remote) (r : result (list string)) (rm' : Remote) :
  export_block fuel b md rm = Some (r, rm') ->
  exists cursors,
    requests rm' = (requests rm ++ map (request (id_of b) 100) cursors)%list
    /\ (cursors <> [] -> wants_children b = OK true).
Proof.
  assert (forall (o : result (list string)),
             Some (o, rm) = Some (r, rm') ->
             exists cursors,
               requests rm' =
               (requests rm ++ map (request (id_of b) 100) cursors)%list
               /\ (cursors <> [] -> wants_children b = OK true)) as Hstay.
  { intros o H. injection H as _ <-. exists [].
    split; [cbn; now rewrite app_nil_r | congruence]. }
  unfold export_block. unfold bind at 1, lift at 1.
  destruct (block_to_md b 0) as [top|e]; [| apply Hstay].
  unfold bind at 1, lift at 1.
  destruct (wants_children b) as [[|]|e]; [| apply Hstay | apply Hstay].
  unfold bind at 1, lift at 1.
  destruct (py_getitem b "id") as [id|e] eqn:Hid; [| apply Hstay].
  replace (id_of b) with id by (unfold id_of; now rewrite Hid).
  unfold bind at 1, get_all_children.
  destruct (children_loop fuel id 100 [] JNull rm) as [[r1 rm1]|] eqn:Hl;
    [| discriminate].
  apply children_loop_requests in Hl as [cs Hcs].
  intros H. exists (JNull :: cs).
  assert (rm' = rm1) as ->.
  { destruct r1 as [kids|e]; [| congruence].
    unfold bind, lift, ret in H.
    destruct (append_kids kids (md ++ [top])); congruence. }
  split; [exact Hcs | reflexivity].
Qed.

(** Over a whole page, every request after the listing of the page is for
    the children of a direct child that reports children and is not a
    child-page reference. *)
Lemma export_blocks_requests (fuel : nat) (blocks : list json) :
  forall (md : list string) (rm : Remote) (r : result (list string))
         (rm' : Remote),
    export_blocks fuel blocks md rm = Some (r, rm') ->
    exists reqs,
      requests rm' = (requests rm ++ reqs)%list
      /\ Forall (fun q => exists b c,
                     In b blocks /\ wants_children b = OK true
                     /\ q = request (id_of b) 100 c) reqs.
Proof.
  induction blocks as [|b blocks IH]; intros md rm r rm' H;
    cbn [export_blocks] in H.
  - injection H as _ <-. exists []. split; [now rewrite app_nil_r |].
    constructor.
  - unfold bind in H.
    destruct (export_block fuel b md rm) as [[r1 rm1]|] eqn:Hb;
      [| discriminate].
    apply export_block_requests in Hb as (cs & Hcs & Hcond).
    assert (Forall (fun q => exists b0 c,
                        In b0 (b :: blocks) /\ wants_children b0 = OK true
                        /\ q = request (id_of b0) 100 c)
                   (map (request (id_of b) 100) cs)) as Hhere.
    { apply Forall_forall. intros q Hq. apply in_map_iff in Hq as (c & <- & Hc).
      exists b, c. split; [now left |]. split; [| reflexivity].
      apply Hcond. intros ->. exact Hc. }
    destruct r1 as [md1|e].
    + apply IH in H as (reqs & Hreqs & Hall).
      exists (map (request (id_of b) 100) cs ++ reqs)%list.
      split; [now rewrite Hreqs, Hcs, app_assoc |].
      apply Forall_app. split; [exact Hhere |].
      revert Hall. apply Forall_impl. intros q (b0 & c & Hin & Hw & ->).
      exists b0, c. split; [now right | split; [exact Hw | reflexivity]].
    + injection H as _ <-. exists (map (request (id_of b) 100) cs).
      split; [exact Hcs | exact Hhere].
Qed.

(** The listing of the page apart, an export only lists the children of
    direct children of the page that report children and are not child-page
    references. *)
Lemma export_page_requests (fuel : nat) (page_id title out_path : json)
    (w : World) (blocks : list json) (rm1 : Remote) (r : result unit)
    (w' : World) :
  get_all_children fuel page_id 100 (remote w) = Some (OK blocks, rm1) ->
  export_page fuel page_id title out_path w = Some (r, w') ->
  exists reqs,
    requests (remote w') = (requests rm1 ++ reqs)%list
    /\ Forall (fun q => exists b c,
                   In b blocks /\ wants_children b = OK true
                   /\ q = request (id_of b) 100 c) reqs.
Proof.
  intros Hpage. unfold export_page. unfold bind at 1, on_remote at 1.
  rewrite Hpage. unfold bind at 1, on_remote at 1. cbn [remote fs].
  destruct (export_blocks fuel blocks _ rm1) as [[r2 rm2]|] eqn:Hb;
    [| discriminate].
  apply export_blocks_requests in Hb as (reqs & Hreqs & Hall).
  intros H. exists reqs. split; [| exact Hall].
  rewrite <- Hreqs. clear - H.
  destruct r2 as [md|e]; [| now injection H as _ <-].
  unfold bind, lift, on_fs in H. cbn [remote fs] in H.
  destruct (path_str out_path) as [p|e]; [| now injection H as _ <-].
  destruct (os_makedirs (os_path_dirname p) (fs w)) as [[[]|e] f];
    [| now injection H as _ <-].
  cbn [remote fs] in H.
  destruct (write_text p _ f) as [r3 f3]. now injection H as _ <-.
Qed.

Lemma block_to_md_dict (b : json) (indent : Z) (s : string) :
  block_to_md b indent = OK s -> exists d, b = JDict d.
Proof.
  destruct b; try (intros H; discriminate H). intros _. now eexists.
Qed.

(** The loop over the blocks of a page does what [page_walk] says. *)
Lemma export_blocks_walk (fuel : nat) (blocks : list json) :
  forall (md : list string) (rm : Remote) (md' : list string) (rm' : Remote),
    export_blocks fuel blocks md rm = Some (OK md', rm') ->
    exists out, md' = (md ++ out)%list /\ page_walk fuel blocks rm out rm'.
Proof.
  induction blocks as [|b bs IH]; intros md rm md' rm' H;
    cbn [export_blocks] in H.
  - injection H as <- <-. exists []. split; [now rewrite app_nil_r |].
    constructor.
  - unfold bind in H.
    destruct (export_block fuel b md rm) as [[[md1|e] rmb]|] eqn:Hb;
      try discriminate.
    apply IH in H as (out & -> & Hw).
    destruct (block_to_md b 0) as [top|e] eqn:Htop.
    2:{ unfold export_block, bind, lift in Hb. rewrite Htop in Hb.
        discriminate Hb. }
    destruct (block_to_md_dict _ _ _ Htop) as [d ->].
    rewrite (export_block_unfold fuel d md top rm Htop) in Hb.
    destruct (fetch_cond d) eqn:Hc.
    + unfold bind, lift, ret in Hb. cbn [py_getitem] in Hb.
      destruct (lookup "id" d) as [id|] eqn:Hid; [| discriminate Hb].
      destruct (get_all_children fuel id 100 rm) as [[[kids|] rmk]|] eqn:Hk;
        try discriminate Hb.
      rewrite append_kids_render in Hb.
      destruct (render_kids kids) as [ks|] eqn:Hks; cbn [rbind] in Hb;
        [| discriminate Hb].
      injection Hb as <- <-. exists (top :: ks ++ nl :: out)%list. split.
      * rewrite <- !app_assoc. reflexivity.
      * eapply walk_parent; eassumption.
    + injection Hb as <- <-. exists (top :: out). split.
      * rewrite <- app_assoc. reflexivity.
      * now apply walk_leaf.
Qed.

Lemma walk_export_blocks (fuel : nat) (blocks : list json) (rm : Remote)
    (out : list string) (rm' : Remote) :
  page_walk fuel blocks rm out rm' ->
  forall md, export_blocks fuel blocks md rm = Some (OK (md ++ out)%list, rm').
Proof.
  induction 1 as [rm | b bs rm top out rm' Hc Htop _ IH
                  | b bs rm top id kids rm1 ks out rm' Hc Htop Hid Hk Hks _ IH];
    intros md; cbn [export_blocks].
  - unfold ret. now rewrite app_nil_r.
  - unfold bind. rewrite (export_block_unfold fuel b md top rm Htop), Hc.
    rewrite IH. now rewrite <- app_assoc.
  - unfold bind at 1. rewrite (export_block_unfold fuel b md top rm Htop), Hc.
    unfold bind, lift, ret. cbn [py_getitem]. rewrite Hid, Hk.
    rewrite append_kids_render, Hks. cbn [rbind]. rewrite IH.
    now rewrite <- !app_assoc.
Qed.

(** C2. An exported page is written from a walk over its direct children:
    each child is rendered at level 0, and exactly when it reports children
    and is not a child-page reference its own children are fetched, rendered
    at level 1 and followed by a blank line; the children of these are never
    fetched.  Conversely every successful export is such a walk, and
    whatever the outcome the requests after the listing of the page are for
    the children of direct children that satisfy the condition. *)
Theorem export_page_children (fuel : nat) (page_id title out_path : json)
    (w : World) (blocks : list json) (rm1 : Remote) :
  get_all_children fuel page_id 100 (remote w) = Some (OK blocks, rm1) ->
  (forall out rm2 p f1 f2,
      page_walk fuel blocks rm1 out rm2 ->
      out_path = JStr p ->
      os_makedirs (os_path_dirname p) (fs w) = (OK tt, f1) ->
      write_text p (rstrip ("# " ++ fmt title ++ nl ++ nl ++ join out) ++ nl)
                 f1 = (OK tt, f2) ->
      export_page fuel page_id title out_path w
      = Some (OK tt, mkWorld rm2 f2))
  /\ (forall w',
         export_page fuel page_id title out_path w = Some (OK tt, w') ->
         exists out p f1,
           page_walk fuel blocks rm1 out (remote w')
           /\ out_path = JStr p
           /\ os_makedirs (os_path_dirname p) (fs w) = (OK tt, f1)
           /\ write_text p
                (rstrip ("# " ++ fmt title ++ nl ++ nl ++ join out) ++ nl) f1
              = (OK tt, fs w'))
  /\ (forall r w',
         export_page fuel page_id title out_path w = Some (r, w') ->
         exists reqs,
           requests (remote w') = (requests rm1 ++ reqs)%list
           /\ Forall (fun q => exists b c,
                          In (JDict b) blocks /\ fetch_cond b = true
                          /\ q = request (field b "id") 100 c) reqs).
Proof.
  intros Hpage. split; [| split].
  - intros out rm2 p f1 f2 Hw -> Hm Hwr. unfold export_page.
    unfold bind at 1, on_remote at 1. rewrite Hpage.
    unfold bind at 1, on_remote at 1. cbn [remote fs].
    rewrite (walk_export_blocks _ _ _ _ _ Hw).
    unfold bind, lift, on_fs. cbn [path_str remote fs]. rewrite Hm.
    cbn [remote fs app join fold_right].
    rewrite !str_app_assoc. fold (join out). now rewrite Hwr.
  - intros w'. unfold export_page. unfold bind at 1, on_remote at 1.
    rewrite Hpage. unfold bind at 1, on_remote at 1. cbn [remote fs].
    destruct (export_blocks fuel blocks _ rm1) as [[[md|] rm2]|] eqn:Hb;
      try discriminate.
    apply export_blocks_walk in Hb as (out & -> & Hw).
    unfold bind, lift, on_fs. cbn [remote fs].
    destruct out_path as [| | | |p| |]; cbn [path_str]; try discriminate.
    destruct (os_makedirs (os_path_dirname p) (fs w)) as [[[]|] f1] eqn:Hm;
      [| discriminate].
    cbn [remote fs].
    destruct (write_text p _ f1) as [[[]|] f2] eqn:Hwr; [| discriminate].
    intros [= <-]. cbn [remote fs]. exists out, p, f1.
    split; [exact Hw |]. split; [reflexivity |]. split; [exact Hm |].
    rewrite <- Hwr. unfold join. cbn [app fold_right].
    now rewrite !str_app_assoc.
  - intros r w' H.
    destruct (export_page_requests _ _ _ _ _ _ _ _ _ Hpage H)
      as (reqs & Hreqs & Hall).
    exists reqs. split; [exact Hreqs |].
    revert Hall. apply Forall_impl. intros q (b & c & Hin & Hwant & ->).
    destruct b as [| | | | | |d]; try discriminate Hwant.
    rewrite wants_children_cond in Hwant. injection Hwant as Hcond.
    exists d, c. split; [exact Hin |]. split; [exact Hcond |].
    unfold id_of, field. cbn [py_getitem].
    now destruct (lookup "id" d).
Qed.

(** ** main *)

(** C7. Without a credential, unset or empty, [main] writes the diagnostic
    to the error stream and exits with status 2, the world untouched: no
    request was sent, no file written, the manifest not read.  With a
    credential it never exits this way and writes nothing to the error
    stream. *)
Theorem main_missing_key (fuel : nat) (key : option string) (p : Process) :
  (key = None \/ key = Some "" ->
   main fuel key p =
   Some (Exited 2,
         mkProcess (stdin p) (stderr p ++ "Missing NOTION_KEY" ++ nl)
                   (world p)))
  /\ (forall k, key = Some k -> k <> "" ->
      forall o p',
        main fuel key p = Some (o, p') ->
        stderr p' = stderr p /\ forall code, o <> Exited code).
Proof.
  split.
  - intros [-> | ->]; reflexivity.
  - intros k -> Hk o p'. unfold main. cbn [truthy].
    destruct k as [|c k]; [congruence |]. cbn [str_empty negb].
    destruct (main_body fuel (stdin p) (world p)) as [[[u|e] w]|];
      [| | discriminate]; intros H; injection H as <- <-;
      (split; [reflexivity | discriminate]).
Qed.

(** * Further properties *)

(** ** rt_to_md: edge cases, errors, concatenation *)

Lemma rt_part_not_dict (rt : json) :
  (forall d, rt <> JDict d) -> rt_part rt = Err AttributeError.
Proof.
  intros H. destruct rt; try reflexivity. now destruct (H d).
Qed.

Lemma py_get_err (v : json) (k : string) (default : json) (e : exn) :
  py_get v k default = Err e -> e = AttributeError.
Proof.
  destruct v; cbn; congruence.
Qed.

Lemma rt_part_err (rt : json) (e : exn) :
  rt_part rt = Err e -> e = AttributeError.
Proof.
  unfold rt_part.
  destruct (py_get rt "plain_text" (JStr "")) as [txt|e1] eqn:E1;
    [| cbn; intros [= <-]; exact (py_get_err _ _ _ _ E1)].
  destruct (py_get rt "annotations" (JDict [])) as [ann|e2] eqn:E2;
    [| cbn; intros [= <-]; exact (py_get_err _ _ _ _ E2)].
  destruct (py_get rt "href" JNull) as [href|e3] eqn:E3;
    [| apply py_get_err in E3; subst e3 ].
  - destruct ann; cbn; try congruence.
  - destruct ann; cbn; congruence.
Qed.

Lemma rt_parts_err (l : list json) (e : exn) :
  rt_parts l = Err e -> e = AttributeError.
Proof.
  induction l as [|rt l IH]; cbn [rt_parts]; [discriminate |].
  destruct (rt_part rt) as [p|e1] eqn:E1; cbn [rbind];
    [| intros [= <-]; exact (rt_part_err _ _ E1)].
  destruct (rt_parts l) as [ps|e2]; cbn [rbind]; [discriminate |].
  intros [= <-]. now apply IH.
Qed.

Lemma rt_parts_app (l1 l2 : list json) (ps1 ps2 : list json) :
  rt_parts l1 = OK ps1 -> rt_parts l2 = OK ps2 ->
  rt_parts (l1 ++ l2) = OK (ps1 ++ ps2)%list.
Proof.
  revert ps1. induction l1 as [|rt l1 IH]; intros ps1; cbn [rt_parts app].
  - intros [= <-] H. exact H.
  - destruct (rt_part rt) as [p|]; cbn [rbind]; [| discriminate].
    destruct (rt_parts l1) as [ps|]; cbn [rbind]; [| discriminate].
    intros [= <-] H2. rewrite (IH ps eq_refl H2). reflexivity.
Qed.

Lemma py_join_app (ps1 ps2 : list json) (s1 s2 : string) :
  py_join ps1 = OK s1 -> py_join ps2 = OK s2 ->
  py_join (ps1 ++ ps2) = OK (s1 ++ s2).
Proof.
  revert s1. induction ps1 as [|p ps1 IH]; intros s1; cbn [py_join app].
  - intros [= <-] H. exact H.
  - destruct p; try discriminate.
    destruct (py_join ps1) as [r|]; cbn [rbind]; [| discriminate].
    intros [= <-] H2. rewrite (IH r eq_refl H2). cbn [rbind].
    clear. f_equal. induction s as [|c s IH]; cbn; [reflexivity |].
    now rewrite IH.
Qed.

(** [rt_to_md] of a list, without the test for emptiness. *)
Lemma rt_to_md_list (l : list json) :
  rt_to_md (JList l) = let? parts := rt_parts l in py_join parts.
Proof.
  unfold rt_to_md. destruct l; reflexivity.
Qed.

(** X1. Rich text that is null or any other false value renders as the
    empty string; a true value that is not a list always raises. *)
Theorem rt_to_md_not_list (v : json) :
  (truthy v = false -> rt_to_md v = OK "")
  /\ (truthy v = true -> (forall l, v <> JList l) ->
      exists e, rt_to_md v = Err e).
Proof.
  split.
  - intros H. unfold rt_to_md. now rewrite H.
  - intros H Hl. unfold rt_to_md. rewrite H.
    destruct v as [|b|z|f|s|l|d]; try (eexists; reflexivity).
    + destruct s as [|c s]; [discriminate |]. eexists. reflexivity.
    + now destruct (Hl l).
    + destruct d as [|[k x] d]; [discriminate |]. eexists. reflexivity.
Qed.

(** X2. Runs are rendered one after the other with no separator: the
    rendering of two lists of runs put end to end is the two renderings put
    end to end. *)
Theorem rt_to_md_app (l1 l2 : list json) (s1 s2 : string) :
  rt_to_md (JList l1) = OK s1 ->
  rt_to_md (JList l2) = OK s2 ->
  rt_to_md (JList (l1 ++ l2)) = OK (s1 ++ s2).
Proof.
  rewrite !rt_to_md_list.
  destruct (rt_parts l1) as [ps1|] eqn:E1; cbn [rbind]; [| discriminate].
  destruct (rt_parts l2) as [ps2|] eqn:E2; cbn [rbind]; [| discriminate].
  intros H1 H2. rewrite (rt_parts_app l1 l2 ps1 ps2 E1 E2). cbn [rbind].
  now apply py_join_app.
Qed.

(** X3. A list of runs one of which is not an object makes [rt_to_md] raise
    [AttributeError], wherever the run stands and whatever the others
    are. *)
Theorem rt_to_md_bad_run (l : list json) (x : json) :
  In x l -> (forall d, x <> JDict d) ->
  rt_to_md (JList l) = Err AttributeError.
Proof.
  intros Hin Hx. rewrite rt_to_md_list.
  assert (rt_parts l = Err AttributeError) as ->; [| reflexivity].
  induction l as [|rt l IH]; [destruct Hin |]. cbn [rt_parts].
  destruct (rt_part rt) as [p|e] eqn:E; cbn [rbind].
  - destruct Hin as [-> | Hin].
    + rewrite (rt_part_not_dict x Hx) in E. discriminate.
    + now rewrite (IH Hin).
  - now rewrite (rt_part_err rt e E).
Qed.

Lemma rt_to_md_err_kind (v : json) (e : exn) :
  rt_to_md v = Err e -> e = AttributeError \/ e = TypeError.
Proof.
  unfold rt_to_md.
  destruct (py_iter (if truthy v then v else JList [])) as [runs|e1] eqn:E1;
    cbn [rbind].
  - destruct (rt_parts runs) as [ps|e2] eqn:E2; cbn [rbind].
    + clear. revert e. induction ps as [|p ps IH]; intros e; cbn [py_join];
        [discriminate |].
      destruct p; try (intros [= <-]; now right).
      destruct (py_join ps) as [r|e']; cbn [rbind]; [discriminate |].
      intros [= <-]. now apply IH.
    + intros [= <-]. left. exact (rt_parts_err _ _ E2).
  - intros [= <-]. right.
    destruct (truthy v); [| discriminate].
    destruct v; cbn in E1; congruence.
Qed.

(** X4. A run whose plain text is not a string and that has neither style
    nor link makes [rt_to_md] raise [TypeError]: the value reaches [join]
    unformatted. *)
Theorem rt_to_md_unformatted (run ann : list (string * json)) (v : json) :
  lookup "plain_text" run = Some v ->
  (forall s, v <> JStr s) ->
  py_get (JDict run) "annotations" (JDict []) = OK (JDict ann) ->
  flag ann "code" = false ->
  flag ann "bold" = false ->
  flag ann "italic" = false ->
  flag ann "strikethrough" = false ->
  link_target run = None ->
  rt_to_md (JList [JDict run]) = Err TypeError.
Proof.
  intros Hp Hv Ha Hc Hb Hi Hs Hh. rewrite rt_to_md_list. cbn [rt_parts].
  assert (rt_part (JDict run) = OK v) as ->.
  { unfold rt_part. rewrite Ha. cbn [py_get rbind]. rewrite Hp.
    unfold flag in Hc, Hb, Hi, Hs. rewrite Hc, Hb, Hi, Hs.
    unfold link_target in Hh.
    destruct (lookup "href" run) as [h|]; cbn [truthy]; [| reflexivity].
    destruct (truthy h); [discriminate | reflexivity]. }
  cbn [rbind py_join]. destruct v; try reflexivity. now destruct (Hv s).
Qed.

(** ** block_to_md: the other branches *)

Lemma payload_text_field (b d : list (string * json)) (t : string) :
  lookup t b = Some (JDict d) ->
  payload_text (JDict b) t = rt_to_md (field d "rich_text").
Proof.
  intros H. unfold payload_text, field. cbn [py_getitem]. now rewrite H.
Qed.

(** X5. A bulleted item is the indentation prefix, a dash, a space, the
    text and a newline; a numbered item has the marker [1.] instead, whatever
    its position in the list. *)
Theorem list_item_md (b d : list (string * json)) (t txt : string)
    (indent : Z) :
  lookup "type" b = Some (JStr t) ->
  lookup t b = Some (JDict d) ->
  rt_to_md (field d "rich_text") = OK txt ->
  (t = "bulleted_list_item" ->
   block_to_md (JDict b) indent = OK (str_mul "  " indent ++ "- " ++ txt ++ nl))
  /\ (t = "numbered_list_item" ->
      block_to_md (JDict b) indent
      = OK (str_mul "  " indent ++ "1. " ++ txt ++ nl)).
Proof.
  intros Ht Hd Htxt.
  split; intros ->; unfold block_to_md; cbn [py_get rbind]; rewrite Ht;
    cbn [prefix String.eqb Ascii.eqb Bool.eqb orb];
    rewrite (payload_text_field b d _ Hd), Htxt; reflexivity.
Qed.

(** X6. A to-do is the indentation prefix, the box [- [x] ] when [checked]
    is true and [- [ ] ] when it is false or missing, the text and a
    newline. *)
Theorem to_do_md (b d : list (string * json)) (txt : string) (indent : Z) :
  lookup "type" b = Some (JStr "to_do") ->
  lookup "to_do" b = Some (JDict d) ->
  rt_to_md (field d "rich_text") = OK txt ->
  block_to_md (JDict b) indent
  = OK (str_mul "  " indent
        ++ (if truthy (field d "checked") then "- [x] " else "- [ ] ")
        ++ txt ++ nl).
Proof.
  intros Ht Hd Htxt. unfold block_to_md. cbn [py_get rbind]. rewrite Ht.
  cbn [prefix String.eqb Ascii.eqb Bool.eqb orb].
  rewrite (payload_text_field b d _ Hd), Htxt.
  cbn [py_getitem]. rewrite Hd. cbn [rbind py_get]. unfold field.
  destruct (lookup "checked" d) as [c|]; cbn [truthy];
    [destruct (truthy c) |]; reflexivity.
Qed.

(** X7. A quote is [> ], the text and two newlines, at any indentation. *)
Theorem quote_md (b d : list (string * json)) (txt : string) (indent : Z) :
  lookup "type" b = Some (JStr "quote") ->
  lookup "quote" b = Some (JDict d) ->
  rt_to_md (field d "rich_text") = OK txt ->
  block_to_md (JDict b) indent = OK ("> " ++ txt ++ nl ++ nl).
Proof.
  intros Ht Hd Htxt. unfold block_to_md. cbn [py_get rbind]. rewrite Ht.
  cbn [prefix String.eqb Ascii.eqb Bool.eqb orb].
  now rewrite (payload_text_field b d _ Hd), Htxt.
Qed.

(** X8. A code block is a fence carrying the language (none when the
    payload has no [language]), the text rendered as inline runs on the next
    line, the closing fence and a blank line, at any indentation. *)
Theorem code_md (b d : list (string * json)) (txt : string) (indent : Z) :
  lookup "type" b = Some (JStr "code") ->
  lookup "code" b = Some (JDict d) ->
  rt_to_md (field d "rich_text") = OK txt ->
  block_to_md (JDict b) indent
  = OK ("```" ++ match lookup "language" d with
                 | Some lang => fmt lang
                 | None => ""
                 end
        ++ nl ++ txt ++ nl ++ "```" ++ nl ++ nl).
Proof.
  intros Ht Hd Htxt. unfold block_to_md. cbn [py_get rbind]. rewrite Ht.
  cbn [prefix String.eqb Ascii.eqb Bool.eqb orb].
  rewrite (payload_text_field b d _ Hd), Htxt.
  cbn [py_getitem]. rewrite Hd. cbn [rbind py_get].
  destruct (lookup "language" d); reflexivity.
Qed.

(** X9. A child-page reference is a dash, a space, the title as it stands
    and a newline, at any indentation; the payload's rich text is not looked
    at, so the branch cannot raise once the payload is an object. *)
Theorem child_page_md (b d : list (string * json)) (indent : Z) :
  lookup "type" b = Some (JStr "child_page") ->
  lookup "child_page" b = Some (JDict d) ->
  block_to_md (JDict b) indent
  = OK ("- " ++ match lookup "title" d with
                | Some title => fmt title
                | None => ""
                end ++ nl).
Proof.
  intros Ht Hd. unfold block_to_md. cbn [py_get rbind]. rewrite Ht.
  cbn [prefix String.eqb Ascii.eqb Bool.eqb orb].
  cbn [py_getitem]. rewrite Hd. cbn [rbind py_get].
  destruct (lookup "title" d); reflexivity.
Qed.

(** ** block_to_md: indentation, line ends, errors *)

Lemma ends_with_nl_app (x y : string) :
  ends_with_nl y -> ends_with_nl (x ++ y).
Proof.
  intros [s' ->]. exists (x ++ s'). now rewrite str_app_assoc.
Qed.

Lemma ends_with_nl_cons (c : ascii) (y : string) :
  ends_with_nl y -> ends_with_nl (String c y).
Proof.
  intros [s' ->]. now exists (String c s').
Qed.

Lemma ends_with_nl_nl : ends_with_nl nl.
Proof.
  now exists "".
Qed.

Lemma str_mul_nonpos (s : string) (n : Z) : n <= 0 -> str_mul s n = "".
Proof.
  intros H. unfold str_mul. destruct n; [reflexivity | lia | reflexivity].
Qed.

Lemma split_nonempty (sep : ascii) (s : string) :
  exists p ps, split sep s = p :: ps.
Proof.
  destruct s as [|c s]; cbn [split]; [now exists "", [] |].
  destruct (Ascii.eqb c sep); [now eexists _, _ |].
  destruct (split sep s); now eexists _, _.
Qed.

Lemma prefix_app_inv (p t : string) :
  prefix p t = true -> exists rest, t = p ++ rest.
Proof.
  revert t. induction p as [|a p IH]; intros t.
  - intros _. now exists t.
  - destruct t as [|b t]; cbn; [intros H; discriminate H |].
    destruct (ascii_dec a b) as [<- |]; [| intros H; discriminate H].
    intros H. destruct (IH t H) as [rest ->]. now exists rest.
Qed.

(** After [startswith('heading_')] the index [1] of the split is in
    range. *)
Lemma heading_split (t : string) :
  prefix "heading_" t = true ->
  exists p, nth_error (split "_" t) 1 = Some p.
Proof.
  intros H. apply prefix_app_inv in H as [rest ->]. cbn.
  destruct (split_nonempty "_" rest) as (p & ps & ->). now exists p.
Qed.

Lemma py_int_err (s : string) (e : exn) : py_int s = Err e -> e = ValueError.
Proof.
  unfold py_int. destruct (sign_split _) as [neg d].
  destruct (str_empty d); [congruence |].
  destruct (max_str_digits <? String.length d)%nat; [congruence |].
  destruct (digits_val 0 d); congruence.
Qed.

Lemma py_repeat_err (s : string) (n : Z) (e : exn) :
  py_repeat s n = Err e -> e = OverflowError \/ e = MemoryError.
Proof.
  unfold py_repeat.
  destruct ((n <? - ssize_max - 1) || (ssize_max <? n));
    [intros [= <-]; now left |].
  destruct (n <=? 0); [discriminate |].
  destruct (ssize_max <? _); [intros [= <-]; now left |].
  destruct (alloc_max <? _); [intros [= <-]; now right | discriminate].
Qed.

Lemma py_getitem_err (v : json) (k : string) (e : exn) :
  py_getitem v k = Err e -> e = KeyError \/ e = TypeError.
Proof.
  destruct v; cbn; try (intros [= <-]; now right).
  destruct (lookup k d); [discriminate | intros [= <-]; now left].
Qed.

Ltac break_block :=
  repeat match goal with
         | |- context [rbind ?r _] => destruct r eqn:?; cbn [rbind]
         | |- context [if ?c then _ else _] => destruct c eqn:?
         | |- context [match ?x with _ => _ end] => destruct x eqn:?
         end.

(** X10. Indentation only ever puts the prefix in front: the exception
    [block_to_md] raises does not depend on the level, the text it returns
    at a level is the text at level 0, with or without the prefix, and a
    level below zero counts as zero. *)
Theorem block_to_md_indent (block : json) (indent : Z) :
  (forall e, block_to_md block 0 = Err e -> block_to_md block indent = Err e)
  /\ (forall s,
         block_to_md block 0 = OK s ->
         block_to_md block indent = OK s
         \/ block_to_md block indent = OK (str_mul "  " indent ++ s))
  /\ (indent <= 0 -> block_to_md block indent = block_to_md block 0).
Proof.
  split; [| split].
  - intros e. unfold block_to_md, payload_text. break_block; congruence.
  - intros s. unfold block_to_md, payload_text.
    break_block; try discriminate; intros [= <-];
      first [left; reflexivity | right; reflexivity].
  - intros H. unfold block_to_md. now rewrite (str_mul_nonpos "  " indent H).
Qed.

(** X11. What [block_to_md] returns is empty or ends with a newline, so the
    renderings of successive blocks never share a line. *)
Theorem block_to_md_line_end (block : json) (indent : Z) (s : string) :
  block_to_md block indent = OK s -> s = "" \/ ends_with_nl s.
Proof.
  unfold block_to_md, payload_text.
  break_block; try discriminate; intros [= <-];
    first [left; reflexivity
          | right;
            repeat first [exact ends_with_nl_nl
                         | apply ends_with_nl_cons
                         | apply ends_with_nl_app]].
Qed.

Lemma payload_text_err (block : json) (t : string) (e : exn) :
  payload_text block t = Err e ->
  e = AttributeError \/ e = TypeError \/ e = KeyError.
Proof.
  unfold payload_text.
  destruct (py_getitem block t) as [inner|e1] eqn:E1; cbn [rbind];
    [| intros [= <-]; destruct (py_getitem_err _ _ _ E1); auto].
  destruct (py_get inner "rich_text" JNull) as [rich|e2] eqn:E2; cbn [rbind];
    [| intros [= <-]; left; exact (py_get_err _ _ _ _ E2)].
  intros H. destruct (rt_to_md_err_kind _ _ H); auto.
Qed.

Ltac err_kinds :=
  repeat match goal with
         | H : py_get _ _ _ = Err _ |- _ => apply py_get_err in H; subst
         | H : payload_text _ _ = Err _ |- _ =>
             apply payload_text_err in H; destruct H as [H | [H | H]]; subst
         | H : py_getitem _ _ = Err _ |- _ =>
             apply py_getitem_err in H; destruct H; subst
         | H : py_int _ = Err _ |- _ => apply py_int_err in H; subst
         | H : py_repeat _ _ = Err _ |- _ =>
             apply py_repeat_err in H; destruct H; subst
         | H : rt_to_md _ = Err _ |- _ =>
             apply rt_to_md_err_kind in H; destruct H; subst
         end.

(** X12. A block of one of the seven named types whose payload is missing
    makes [block_to_md] raise [KeyError], and one whose payload is not an
    object makes it raise [AttributeError]: unlike the fallback, these
    branches do not tolerate a missing payload. *)
Theorem block_to_md_missing_payload (b : list (string * json)) (t : string)
    (indent : Z) :
  lookup "type" b = Some (JStr t) ->
  In t named_types ->
  (lookup t b = None -> block_to_md (JDict b) indent = Err KeyError)
  /\ (forall v, lookup t b = Some v -> (forall d, v <> JDict d) ->
      block_to_md (JDict b) indent = Err AttributeError).
Proof.
  intros Ht Hin.
  assert (forall r, py_getitem (JDict b) t = Err r \/
                    (exists v, py_getitem (JDict b) t = OK v
                               /\ py_get v "rich_text" JNull = Err r
                               /\ (forall k x, py_get v k x = Err r)) ->
                    block_to_md (JDict b) indent = Err r) as Hall.
  { intros r Hr. unfold block_to_md, payload_text. cbn [py_get rbind].
    rewrite Ht. cbn [In named_types] in Hin.
    destruct Hin as [<- | [<- | [<- | [<- | [<- | [<- | [<- | []]]]]]]];
      cbn [prefix String.eqb Ascii.eqb Bool.eqb orb];
      (destruct Hr as [-> | (v & -> & Hv & Hk)];
       [reflexivity | cbn [rbind]; rewrite ?Hv, ?Hk; reflexivity]). }
  split.
  - intros H. apply Hall. left. cbn. now rewrite H.
  - intros v H Hv. apply Hall. right. exists v. cbn [py_getitem]. rewrite H.
    split; [reflexivity |].
    destruct v; try (split; reflexivity). now destruct (Hv d).
Qed.

Lemma block_to_md_err_kind (block : json) (indent : Z) (e : exn) :
  block_to_md block indent = Err e ->
  e = AttributeError \/ e = TypeError \/ e = KeyError \/ e = ValueError
  \/ e = OverflowError \/ e = MemoryError.
Proof.
  unfold block_to_md.
  break_block; try discriminate; intros [= <-]; err_kinds; auto 8;
    match goal with
    | Hp : prefix "heading_" ?t = true,
      Hn : match nth_error (split "_" ?t) 1 with _ => _ end = Err _ |- _ =>
        destruct (heading_split t Hp) as [p Hs]; rewrite Hs in Hn;
        discriminate Hn
    end.
Qed.

(** X13. [block_to_md] never raises [IndexError]: once the type starts
    with [heading_], the split of the type at the underscores has a second
    component. *)
Theorem block_to_md_index (block : json) (indent : Z) :
  block_to_md block indent <> Err IndexError.
Proof.
  intros H. apply block_to_md_err_kind in H.
  destruct H as [H | [H | [H | [H | [H | H]]]]]; discriminate H.
Qed.

(** X14. A block that is not an object, or whose [type] is missing or not a
    string, makes [block_to_md] raise [AttributeError]. *)
Theorem block_to_md_no_type (block : json) (indent : Z) :
  (forall t, py_get block "type" JNull <> OK (JStr t)) ->
  block_to_md block indent = Err AttributeError.
Proof.
  intros H. unfold block_to_md.
  destruct (py_get block "type" JNull) as [t|e] eqn:E; cbn [rbind].
  - destruct t; try reflexivity. now destruct (H s).
  - now rewrite (py_get_err _ _ _ _ E).
Qed.

(** ** get_all_children: failures and requests *)

Lemma children_loop_fail (pages : list json) :
  forall (fuel : nat) (id : json) (ps : Z) (out : list json) (cursor : json)
         (rm : Remote) (e : exn),
    serves (pending rm) pages ->
    forallb (fun r => page_ok r && has_more r) pages = true ->
    page_error (pending rm (length pages)) = Some e ->
    (length pages < fuel)%nat ->
    exists rm',
      children_loop fuel id ps out cursor rm = Some (Err e, rm')
      /\ requests rm' =
         (requests rm
          ++ map (request id ps) (cursor :: map next_cursor pages))%list.
Proof.
  induction pages as [|r pages IH];
    intros fuel id ps out cursor rm e Hs Hall He Hfuel;
    (destruct fuel as [|fuel]; [cbn in Hfuel; lia |]).
  - cbn [length] in He. cbn [children_loop].
    unfold bind, lift, ret, http. unfold page_error in He.
    destruct (pending rm 0%nat) as [res|].
    + destruct (py_get res "results" (JList [])) as [results|e1].
      * destruct (py_iter results) as [items|e1]; [discriminate He |].
        injection He as ->. eexists. split; reflexivity.
      * injection He as ->. eexists. split; reflexivity.
    + injection He as <-. eexists. split; reflexivity.
  - destruct Hs as [H0 Hs]. cbn [forallb] in Hall.
    apply andb_true_iff in Hall as [Hr Hall].
    apply andb_true_iff in Hr as [Hrok Hmore].
    rewrite (children_loop_step _ _ _ _ _ _ _ H0 Hrok), Hmore. cbn zeta.
    cbn [length] in Hfuel, He.
    destruct (IH fuel id ps (out ++ results_of r)%list (next_cursor r)
                 (mkRemote (fun n => pending rm (S n))
                           (requests rm ++ [request id ps cursor])%list) e)
      as (rm' & Hrun & Hreq); [exact Hs | exact Hall | exact He | lia |].
    exists rm'. split; [exact Hrun |].
    rewrite Hreq. cbn [requests map]. now rewrite <- app_assoc.
Qed.

(** X15. When the request after the pages [pages], which all report more,
    fails or brings a malformed response, [get_all_children] raises the
    corresponding exception after [length pages + 1] requests: the results
    gathered so far are not returned. *)
Theorem get_all_children_failure (fuel : nat) (id : json) (ps : Z)
    (rm : Remote) (pages : list json) (e : exn) :
  serves (pending rm) pages ->
  forallb (fun r => page_ok r && has_more r) pages = true ->
  page_error (pending rm (length pages)) = Some e ->
  (length pages < fuel)%nat ->
  exists rm',
    get_all_children fuel id ps rm = Some (Err e, rm')
    /\ requests rm' =
       (requests rm
        ++ map (request id ps) (JNull :: map next_cursor pages))%list.
Proof.
  intros Hs Hall He Hfuel. unfold get_all_children.
  now apply children_loop_fail.
Qed.

Lemma children_loop_trace (fuel : nat) :
  forall (id : json) (ps : Z) (out : list json) (cursor : json)
         (rm : Remote) (r : result (list json)) (rm' : Remote),
    children_loop fuel id ps out cursor rm = Some (r, rm') ->
    exists cs,
      requests rm' = (requests rm ++ map (request id ps) (cursor :: cs))%list
      /\ forall n, pending rm' n = pending rm (S (length cs) + n)%nat.
Proof.
  induction fuel as [|fuel IH]; intros id ps out cursor rm r rm' H;
    [discriminate H |].
  cbn [children_loop] in H. unfold bind, lift, ret, http in H.
  destruct (pending rm 0%nat) as [res|];
    [| injection H as _ <-; exists []; split; reflexivity].
  destruct (py_get res "results" (JList [])) as [results|];
    [| injection H as _ <-; exists []; split; reflexivity].
  destruct (py_iter results) as [items|];
    [| injection H as _ <-; exists []; split; reflexivity].
  destruct (py_get res "has_more" JNull) as [more|];
    [| injection H as _ <-; exists []; split; reflexivity].
  destruct (negb (truthy more));
    [injection H as _ <-; exists []; split; reflexivity |].
  destruct (py_get res "next_cursor" JNull) as [c|];
    [| injection H as _ <-; exists []; split; reflexivity].
  apply IH in H as (cs & Hcs & Hp). exists (c :: cs). split.
  - rewrite Hcs. cbn [requests map]. now rewrite <- app_assoc.
  - intros n. rewrite Hp. reflexivity.
Qed.

Lemma prefix_app (a b : string) : prefix a (a ++ b) = true.
Proof.
  induction a as [|c a IH]; cbn; [now destruct b |].
  destruct (ascii_dec c c) as [_ | H]; [exact IH | now destruct H].
Qed.

Lemma request_url (id : json) (ps : Z) (cursor : json) :
  request id ps cursor =
  ("GET",
   endpoint id ps
   ++ (if truthy cursor then "&start_cursor=" ++ fmt cursor else "")).
Proof.
  unfold request, endpoint. f_equal.
  rewrite !str_app_assoc. reflexivity.
Qed.

(** X16. Whatever the service answers, [get_all_children] only sends [GET]
    requests to the children endpoint of the block it was given, with the
    page size it was given; it sends at least one, the first without a
    cursor, and takes one response for each request. *)
Theorem get_all_children_requests (fuel : nat) (id : json) (ps : Z)
    (rm : Remote) (r : result (list json)) (rm' : Remote) :
  get_all_children fuel id ps rm = Some (r, rm') ->
  exists cs,
    requests rm' = (requests rm ++ map (request id ps) (JNull :: cs))%list
    /\ (forall n, pending rm' n = pending rm (S (length cs) + n)%nat)
    /\ request id ps JNull = ("GET", endpoint id ps)
    /\ forall q, In q (map (request id ps) (JNull :: cs)) ->
                 fst q = "GET" /\ prefix (endpoint id ps) (snd q) = true.
Proof.
  intros H. apply children_loop_trace in H as (cs & Hreq & Hp).
  exists cs. split; [exact Hreq |]. split; [exact Hp |]. split.
  - rewrite request_url. cbn [truthy]. now rewrite append_nil_r.
  - intros q Hq. apply in_map_iff in Hq as (c & <- & _).
    rewrite request_url. cbn [fst snd]. split; [reflexivity |].
    apply prefix_app.
Qed.

(** ** export_page: the buffer, the requests, the file *)

Lemma export_block_acc (fuel : nat) (b : json) (md : list string)
    (rm : Remote) :
  export_block fuel b md rm = onto md (export_block fuel b [] rm).
Proof.
  unfold export_block, bind, lift, ret, onto.
  destruct (block_to_md b 0) as [s|]; [| reflexivity].
  destruct (wants_children b) as [[|]|]; try reflexivity.
  destruct (py_getitem b "id") as [id|]; [| reflexivity].
  destruct (get_all_children fuel id 100 rm) as [[[kids|] rm1]|];
    try reflexivity.
  rewrite !append_kids_render.
  destruct (render_kids kids) as [ks|]; cbn [rbind]; [| reflexivity].
  cbn [app]. now rewrite <- !app_assoc.
Qed.

(** X17. The loop over the blocks only appends to the buffer: started from
    a buffer [md] it gives [md] followed by what it gives started from the
    empty buffer, with the same requests and the same exception if any. *)
Theorem export_blocks_acc (fuel : nat) (blocks : list json)
    (md : list string) (rm : Remote) :
  export_blocks fuel blocks md rm = onto md (export_blocks fuel blocks [] rm).
Proof.
  revert md rm. induction blocks as [|b blocks IH]; intros md rm;
    cbn [export_blocks].
  - unfold ret, onto. now rewrite app_nil_r.
  - unfold bind. rewrite (export_block_acc fuel b md rm).
    destruct (export_block fuel b [] rm) as [[[o1|e] rm1]|]; cbn [onto];
      try reflexivity.
    rewrite (IH (md ++ o1)%list rm1), (IH o1 rm1).
    destruct (export_blocks fuel blocks [] rm1) as [[[o2|e] rm2]|];
      cbn [onto]; try reflexivity.
    now rewrite app_assoc.
Qed.

(** X18. A page none of whose blocks asks for its children costs no request
    beyond its own listing: the loop leaves the service untouched and the
    buffer grows by the renderings of the blocks at level 0, in order. *)
Theorem export_blocks_leaves (fuel : nat) (blocks : list json)
    (md ss : list string) (rm : Remote) :
  Forall (fun b => wants_children b = OK false) blocks ->
  render_all 0 blocks = OK ss ->
  export_blocks fuel blocks md rm = Some (OK (md ++ ss)%list, rm).
Proof.
  revert md ss. induction blocks as [|b blocks IH]; intros md ss Hall Hr;
    cbn [export_blocks render_all] in *.
  - injection Hr as <-. unfold ret. now rewrite app_nil_r.
  - inversion Hall as [|b' bs Hb Hbs]; subst.
    destruct (block_to_md b 0) as [s|] eqn:Es; cbn [rbind] in Hr;
      [| discriminate].
    destruct (render_all 0 blocks) as [ss'|]; cbn [rbind] in Hr;
      [| discriminate].
    injection Hr as <-. unfold bind, export_block, lift, ret.
    rewrite Es, Hb. unfold bind. rewrite (IH (md ++ [s])%list ss' Hbs eq_refl).
    now rewrite <- app_assoc.
Qed.

Lemma export_blocks_app (fuel : nat) (a b : list json) :
  forall (md : list string) (rm : Remote) (md1 : list string) (rm1 : Remote),
    export_blocks fuel a md rm = Some (OK md1, rm1) ->
    export_blocks fuel (a ++ b) md rm = export_blocks fuel b md1 rm1.
Proof.
  induction a as [|x a IH]; intros md rm md1 rm1 H;
    cbn [export_blocks app] in *.
  - now injection H as <- <-.
  - unfold bind in *.
    destruct (export_block fuel x md rm) as [[[mdx|] rmx]|];
      try discriminate H.
    now apply IH.
Qed.

(** X19. A direct child of the page that asks for its children but has no
    [id] makes [export_page] raise [KeyError] once the blocks before it are
    exported and the child itself rendered: no request is sent for it or
    for the blocks after it, and nothing is written. *)
Theorem export_page_no_id (fuel : nat) (page_id title out_path : json)
    (w : World) (before after : list json) (b : list (string * json))
    (rm1 rm2 : Remote) (out : list string) (top : string) :
  get_all_children fuel page_id 100 (remote w)
  = Some (OK (before ++ JDict b :: after)%list, rm1) ->
  page_walk fuel before rm1 out rm2 ->
  block_to_md (JDict b) 0 = OK top ->
  fetch_cond b = true ->
  lookup "id" b = None ->
  export_page fuel page_id title out_path w
  = Some (Err KeyError, mkWorld rm2 (fs w)).
Proof.
  intros Hpage Hw Htop Hc Hid. unfold export_page.
  unfold bind at 1, on_remote at 1. rewrite Hpage.
  unfold bind at 1, on_remote at 1. cbn [remote fs].
  rewrite (export_blocks_app fuel before (JDict b :: after) _ _ _ _
             (walk_export_blocks _ _ _ _ _ Hw _)).
  cbn [export_blocks]. unfold bind at 1.
  rewrite (export_block_unfold fuel b _ top rm2 Htop), Hc.
  unfold bind, lift. cbn [py_getitem]. now rewrite Hid.
Qed.

Lemma export_blocks_extends (fuel : nat) (blocks : list json) :
  forall (md md' : list string) (rm rm' : Remote),
    export_blocks fuel blocks md rm = Some (OK md', rm') ->
    exists out, md' = (md ++ out)%list.
Proof.
  intros md md' rm rm' H.
  apply export_blocks_walk in H as (out & -> & _). now exists out.
Qed.

Lemma rstrip_idem (s : string) : rstrip (rstrip s) = rstrip s.
Proof.
  induction s as [|c s IH]; cbn [rstrip]; [reflexivity |].
  destruct (str_empty (rstrip s) && isspace c) eqn:E; [reflexivity |].
  cbn [rstrip]. now rewrite IH, E.
Qed.

(** X20. When [export_page] returns, the children of the page were listed,
    the destination directory was created and then one file written at the
    destination; its content is the buffer, which begins with the heading
    of the title, stripped of trailing whitespace and followed by a single
    newline, so it begins with [#]. *)
Theorem export_page_writes (fuel : nat) (page_id title out_path : json)
    (w w' : World) :
  export_page fuel page_id title out_path w = Some (OK tt, w') ->
  exists blocks rm1 out p f1 body,
    get_all_children fuel page_id 100 (remote w) = Some (OK blocks, rm1)
    /\ export_blocks fuel blocks ["# " ++ fmt title ++ nl ++ nl] rm1
       = Some (OK (("# " ++ fmt title ++ nl ++ nl) :: out), remote w')
    /\ out_path = JStr p
    /\ os_makedirs (os_path_dirname p) (fs w) = (OK tt, f1)
    /\ write_text p (body ++ nl) f1 = (OK tt, fs w')
    /\ body = rstrip ("# " ++ fmt title ++ nl ++ nl ++ join out)
    /\ rstrip body = body
    /\ prefix "#" body = true.
Proof.
  unfold export_page. unfold bind at 1, on_remote at 1.
  destruct (get_all_children fuel page_id 100 (remote w))
    as [[[blocks|] rm1]|]; try discriminate.
  unfold bind at 1, on_remote at 1. cbn [remote fs].
  destruct (export_blocks fuel blocks _ rm1) as [[[md|] rm2]|] eqn:Hb;
    try discriminate.
  destruct (export_blocks_extends _ _ _ _ _ _ Hb) as [out ->].
  unfold bind, lift, on_fs. cbn [remote fs].
  destruct out_path as [| | | |p| |]; cbn [path_str]; try discriminate.
  destruct (os_makedirs (os_path_dirname p) (fs w)) as [[[]|] f1] eqn:Hm;
    [| discriminate].
  cbn [remote fs].
  destruct (write_text p _ f1) as [[[]|] f2] eqn:Hw; [| discriminate].
  intros [= <-]. cbn [remote fs].
  exists blocks, rm1, out, p, f1.
  exists (rstrip ("# " ++ fmt title ++ nl ++ nl ++ join out)).
  repeat split; try reflexivity.
  - exact Hb.
  - exact Hm.
  - rewrite <- Hw. unfold join. cbn [app fold_right].
    now rewrite !str_app_assoc.
  - apply rstrip_idem.
  - cbn [append]. cbn [rstrip]. change (isspace "#") with false.
    rewrite andb_false_r.
    match goal with
    | |- prefix _ (String _ ?x) = true => destruct x; reflexivity
    end.
Qed.

(** X21. A page whose listing fails, or one of whose blocks fails to be
    exported, or whose destination is not a string, makes [export_page]
    raise without touching the file system: neither the directory nor the
    file is created. *)
Theorem export_page_failure (fuel : nat) (page_id title out_path : json)
    (w : World) :
  (forall e rm1,
      get_all_children fuel page_id 100 (remote w) = Some (Err e, rm1) ->
      export_page fuel page_id title out_path w
      = Some (Err e, mkWorld rm1 (fs w)))
  /\ (forall blocks rm1 e rm2,
         get_all_children fuel page_id 100 (remote w)
         = Some (OK blocks, rm1) ->
         export_blocks fuel blocks ["# " ++ fmt title ++ nl ++ nl] rm1
         = Some (Err e, rm2) ->
         export_page fuel page_id title out_path w
         = Some (Err e, mkWorld rm2 (fs w)))
  /\ (forall blocks rm1 md rm2,
         get_all_children fuel page_id 100 (remote w)
         = Some (OK blocks, rm1) ->
         export_blocks fuel blocks ["# " ++ fmt title ++ nl ++ nl] rm1
         = Some (OK md, rm2) ->
         (forall p, out_path <> JStr p) ->
         export_page fuel page_id title out_path w
         = Some (Err TypeError, mkWorld rm2 (fs w))).
Proof.
  split; [| split].
  - intros e rm1 H. unfold export_page, bind, on_remote. now rewrite H.
  - intros blocks rm1 e rm2 H1 H2. unfold export_page.
    unfold bind at 1, on_remote at 1. rewrite H1.
    unfold bind at 1, on_remote at 1. cbn [remote fs]. now rewrite H2.
  - intros blocks rm1 md rm2 H1 H2 Hp. unfold export_page.
    unfold bind at 1, on_remote at 1. rewrite H1.
    unfold bind at 1, on_remote at 1. cbn [remote fs]. rewrite H2.
    unfold bind, lift.
    destruct out_path; try reflexivity. now destruct (Hp s).
Qed.

(** ** main: the manifest *)

(** X22. The entries of the manifest are exported in order and the first
    failure ends the run: after a first part that succeeds the export goes
    on with the rest from the world reached, and after one that raises
    nothing of the rest is processed. *)
Theorem export_all_app (fuel : nat) (a b : list (string * json))
    (w : World) :
  (forall w1,
      export_all fuel a w = Some (OK tt, w1) ->
      export_all fuel (a ++ b) w = export_all fuel b w1)
  /\ (forall e w1,
         export_all fuel a w = Some (Err e, w1) ->
         export_all fuel (a ++ b) w = Some (Err e, w1)).
Proof.
  revert w. induction a as [|[page_id meta] a IH]; intros w;
    cbn [export_all app].
  - split; [intros w1 [= <-]; reflexivity | discriminate].
  - unfold bind, lift.
    destruct (py_getitem meta "title") as [title|];
      [| split; [discriminate | intros ? ? H; exact H]].
    destruct (py_getitem meta "path") as [path|];
      [| split; [discriminate | intros ? ? H; exact H]].
    destruct (export_page fuel (JStr page_id) title path w) as [[[[]|] w0]|];
      [apply IH | |]; (split; [discriminate | intros ? ? H; exact H]).
Qed.

(** X23. A manifest entry that is not an object makes the export raise
    [TypeError], and one without [title] or without [path] [KeyError],
    before any request or write for that entry. *)
Theorem export_all_bad_entry (fuel : nat) (page_id : string) (meta : json)
    (rest : list (string * json)) (w : World) :
  ((forall d, meta <> JDict d) ->
   export_all fuel ((page_id, meta) :: rest) w = Some (Err TypeError, w))
  /\ (forall d, meta = JDict d ->
      lookup "title" d = None \/ lookup "path" d = None ->
      export_all fuel ((page_id, meta) :: rest) w = Some (Err KeyError, w)).
Proof.
  split.
  - intros H. cbn [export_all]. unfold bind, lift.
    destruct meta; try reflexivity. now destruct (H d).
  - intros d -> H. cbn [export_all]. unfold bind, lift. cbn [py_getitem].
    destruct (lookup "title" d); [| reflexivity].
    destruct H as [H | H]; [discriminate H |]. now rewrite H.
Qed.

(** X24. With a credential, a standard input that is not JSON makes [main]
    raise [ValueError], a manifest that is not an object [AttributeError],
    and an empty manifest makes it return; in all three cases nothing was
    requested or written. *)
Theorem main_bad_manifest (fuel : nat) (k : string) (p : Process) :
  k <> "" ->
  (stdin p = None -> main fuel (Some k) p = Some (Raised ValueError, p))
  /\ (forall v, stdin p = Some v -> (forall d, v <> JDict d) ->
      main fuel (Some k) p = Some (Raised AttributeError, p))
  /\ (stdin p = Some (JDict []) -> main fuel (Some k) p = Some (Returned, p)).
Proof.
  intros Hk. destruct k as [|c k]; [congruence |].
  destruct p as [input err wd]. cbn [stdin]. unfold main. cbn [truthy].
  cbn [str_empty negb stdin stderr world]. unfold main_body, bind, lift.
  split; [| split].
  - intros ->. reflexivity.
  - intros v -> Hv. destruct v; try reflexivity. now destruct (Hv d).
  - intros ->. reflexivity.
Qed.

End Exporter.

(** * Instances at the sample inputs *)


Lemma rt_to_md_plain_identity_witness :
  rt_to_md sample_repr (JList [text_run "hi"]) = OK "hi".
Proof.
  exact (rt_to_md_plain_identity sample_repr (plain_run "hi") no_styles "hi"
           eq_refl eq_refl eq_refl eq_refl eq_refl eq_refl eq_refl).
Defined.

Lemma block_to_md_unknown_total_witness :
  block_to_md sample_repr sample_alloc (JDict (block_of "callout" [text_run "note"])) 1
  = OK ""
  \/ exists txt,
       str_empty (strip txt) = false /\
       block_to_md sample_repr sample_alloc
         (JDict (block_of "callout" [text_run "note"])) 1
       = OK (str_mul "  " 1 ++ txt ++ nl ++ nl).
Proof.
  apply (block_to_md_unknown_total sample_repr sample_alloc
           (block_of "callout" [text_run "note"]) "callout" 1).
  - reflexivity.
  - reflexivity.
  - intros d rich Hd Hrich. injection Hd as <-. injection Hrich as <-.
    reflexivity.
Defined.

(** C4, as stated, fails: a rich-text field that is not a list of runs makes
    the fallback branch raise, and so does a type that starts with
    [heading_] without a number after it. *)
Lemma block_to_md_unknown_raises :
  recognized "callout" = false
  /\ block_to_md sample_repr sample_alloc
       (JDict [("type", JStr "callout");
               ("callout", JDict [("rich_text", JInt 5)])]) 0
     = Err TypeError
  /\ block_to_md sample_repr sample_alloc (JDict (block_of "heading_x" [])) 0
     = Err ValueError.
Proof.
  repeat split.
Qed.

Lemma paragraph_md_witness :
  block_to_md sample_repr sample_alloc (JDict (block_of "paragraph" [text_run "   "])) 2
  = OK nl
  /\ block_to_md sample_repr sample_alloc (JDict (block_of "paragraph" [text_run "a "])) 2
     = OK ("    a " ++ nl ++ nl).
Proof.
  split.
  - apply (paragraph_md sample_repr sample_alloc (block_of "paragraph" [text_run "   "])
             (JDict [("rich_text", JList [text_run "   "])])
             (JList [text_run "   "]) "   " 2
             eq_refl eq_refl eq_refl eq_refl).
    reflexivity.
  - apply (paragraph_md sample_repr sample_alloc (block_of "paragraph" [text_run "a "])
             (JDict [("rich_text", JList [text_run "a "])])
             (JList [text_run "a "]) "a " 2
             eq_refl eq_refl eq_refl eq_refl).
    discriminate.
Defined.

Lemma fallback_md_witness :
  block_to_md sample_repr sample_alloc (JDict (block_of "callout" [text_run " "])) 1
  = OK ""
  /\ block_to_md sample_repr sample_alloc (JDict (block_of "callout" [text_run "note"])) 1
     = OK ("  note" ++ nl ++ nl)
  /\ block_to_md sample_repr sample_alloc
       (JDict [("type", JStr "divider"); ("divider", JDict [])]) 1
     = OK "".
Proof.
  split; [| split].
  - exact (proj1 (fallback_md sample_repr sample_alloc
                    (block_of "callout" [text_run " "]) "callout" 1
                    eq_refl eq_refl)
             _ _ " " eq_refl eq_refl eq_refl).
  - exact (proj1 (fallback_md sample_repr sample_alloc
                    (block_of "callout" [text_run "note"]) "callout" 1
                    eq_refl eq_refl)
             _ _ "note" eq_refl eq_refl eq_refl).
  - apply (proj2 (fallback_md sample_repr sample_alloc
                    [("type", JStr "divider"); ("divider", JDict [])]
                    "divider" 1 eq_refl eq_refl)).
    intros d Hd. injection Hd as <-. reflexivity.
Defined.



Lemma get_all_children_concat_witness :
  exists rm',
    get_all_children sample_repr 5 (JStr "P") 100 (mkRemote three_pages [])
    = Some (OK [JInt 1; JInt 2; JInt 3; JInt 4], rm')
    /\ requests rm'
       = [("GET", "https://api.notion.com/v1/blocks/P/children?page_size=100");
          ("GET",
           "https://api.notion.com/v1/blocks/P/children?page_size=100&start_cursor=c1");
          ("GET", "https://api.notion.com/v1/blocks/P/children?page_size=100")].
Proof.
  destruct (get_all_children_concat sample_repr 5 (JStr "P") 100
              (mkRemote three_pages [])
              [page_of [JInt 1; JInt 2] true (JStr "c1");
               page_of [JInt 3] true JNull]
              (page_of [JInt 4] false JNull))
    as (rm' & Hrun & Hreq & _).
  - cbn. repeat split.
  - reflexivity.
  - reflexivity.
  - reflexivity.
  - cbn. lia.
  - exists rm'. split; [exact Hrun | exact Hreq].
Defined.

Lemma get_all_children_fetches_witness :
  (exists out rm',
      get_all_children sample_repr 3 (JStr "P") 100 (mkRemote three_pages [])
      = Some (OK out, rm')
      /\ length (requests rm') = 3%nat)
  /\ get_all_children sample_repr 2 (JStr "P") 100 (mkRemote three_pages [])
     = None.
Proof.
  destruct (proj1 (get_all_children_fetches sample_repr (JStr "P") 100
                     (mkRemote three_pages []))
              3%nat
              [page_of [JInt 1; JInt 2] true (JStr "c1");
               page_of [JInt 3] true JNull]
              (page_of [JInt 4] false JNull))
    as [Hstop _].
  - cbn. repeat split.
  - reflexivity.
  - reflexivity.
  - reflexivity.
  - split; [| reflexivity].
    destruct Hstop as (out & rm' & Hrun & _ & Hlen); [cbn; lia |].
    exists out, rm'. split; [exact Hrun | exact Hlen].
Defined.

Lemma export_page_children_witness :
  export_page sample_repr sample_alloc (list (string * string))
    sample_dirname sample_makedirs sample_write 3
    (JStr "P") (JStr "T") (JStr "out/p.md")
    (mkWorld _ (mkRemote page_script []) [])
  = Some (OK tt,
          mkWorld _
            (mkRemote (fun n => page_script (S (S n)))
               [("GET",
                 "https://api.notion.com/v1/blocks/P/children?page_size=100");
                ("GET",
                 "https://api.notion.com/v1/blocks/b1/children?page_size=100")])
            [("out/p.md",
              "# T" ++ nl ++ nl ++ "- top" ++ nl ++ "  kid" ++ nl ++ nl ++ nl
              ++ "- Sub" ++ nl)]).
Proof.
  apply (proj1 (export_page_children sample_repr sample_alloc
                  (list (string * string)) sample_dirname sample_makedirs
                  sample_write 3 (JStr "P") (JStr "T") (JStr "out/p.md")
                  (mkWorld _ (mkRemote page_script []) [])
                  [JDict parent_block; JDict subpage_block]
                  (mkRemote (fun n => page_script (S n))
                     [request sample_repr (JStr "P") 100 JNull])
                  eq_refl)
           ["- top" ++ nl; "  kid" ++ nl ++ nl; nl; "- Sub" ++ nl]
           (mkRemote (fun n => page_script (S (S n)))
              [request sample_repr (JStr "P") 100 JNull;
               request sample_repr (JStr "b1") 100 JNull])
           "out/p.md" []
           [("out/p.md",
             "# T" ++ nl ++ nl ++ "- top" ++ nl ++ "  kid" ++ nl ++ nl ++ nl
             ++ "- Sub" ++ nl)]).
  - apply (walk_parent sample_repr sample_alloc 3 parent_block
             [JDict subpage_block] _ ("- top" ++ nl) (JStr "b1") [kid_block]
             (mkRemote (fun n => page_script (S (S n)))
                [request sample_repr (JStr "P") 100 JNull;
                 request sample_repr (JStr "b1") 100 JNull])
             ["  kid" ++ nl ++ nl] ["- Sub" ++ nl]);
      try reflexivity.
    apply walk_leaf; try reflexivity. apply walk_done.
  - reflexivity.
  - reflexivity.
  - reflexivity.
Defined.

Lemma main_missing_key_witness :
  main sample_repr sample_alloc unit (fun p => p) (fun _ f => (OK tt, f))
       (fun _ _ f => (OK tt, f)) 3 (Some "")
       (mkProcess unit None "" (mkWorld unit (mkRemote kids_page []) tt))
  = Some (Exited 2,
          mkProcess unit None ("Missing NOTION_KEY" ++ nl)
                    (mkWorld unit (mkRemote kids_page []) tt)).
Proof.
  apply (proj1 (main_missing_key sample_repr sample_alloc unit (fun p => p)
                  (fun _ f => (OK tt, f)) (fun _ _ f => (OK tt, f)) 3 (Some "")
                  (mkProcess unit None ""
                             (mkWorld unit (mkRemote kids_page []) tt)))).
  right. reflexivity.
Defined.

Lemma rt_to_md_app_witness :
  rt_to_md sample_repr (JList ([text_run "a"] ++ [JDict styled_run]))
  = OK ("a" ++ "[~~***`hi`***~~](http://x)").
Proof.
  exact (rt_to_md_app sample_repr [text_run "a"] [JDict styled_run] _ _
           eq_refl eq_refl).
Defined.

Lemma rt_to_md_bad_run_witness :
  rt_to_md sample_repr (JList [text_run "a"; JStr "b"; JInt 1])
  = Err AttributeError.
Proof.
  apply (rt_to_md_bad_run sample_repr _ (JStr "b")).
  - right. left. reflexivity.
  - discriminate.
Defined.

Lemma rt_to_md_unformatted_witness :
  rt_to_md sample_repr
    (JList [JDict [("plain_text", JInt 7); ("annotations", JDict no_styles)]])
  = Err TypeError.
Proof.
  apply (rt_to_md_unformatted sample_repr
           [("plain_text", JInt 7); ("annotations", JDict no_styles)]
           no_styles (JInt 7)); try reflexivity.
  discriminate.
Defined.

Lemma list_item_md_witness :
  block_to_md sample_repr sample_alloc
    (JDict (block_of "bulleted_list_item" [text_run "a"])) 1
  = OK ("  - a" ++ nl)
  /\ block_to_md sample_repr sample_alloc
       (JDict (block_of "numbered_list_item" [text_run "b"])) 0
     = OK ("1. b" ++ nl).
Proof.
  split.
  - exact (proj1 (list_item_md sample_repr sample_alloc
                    (block_of "bulleted_list_item" [text_run "a"])
                    [("rich_text", JList [text_run "a"])]
                    "bulleted_list_item" "a" 1 eq_refl eq_refl eq_refl)
             eq_refl).
  - exact (proj2 (list_item_md sample_repr sample_alloc
                    (block_of "numbered_list_item" [text_run "b"])
                    [("rich_text", JList [text_run "b"])]
                    "numbered_list_item" "b" 0 eq_refl eq_refl eq_refl)
             eq_refl).
Defined.

Lemma to_do_md_witness :
  block_to_md sample_repr sample_alloc (JDict todo_block) 1 = OK ("  - [x] buy" ++ nl).
Proof.
  exact (to_do_md sample_repr sample_alloc todo_block
           [("rich_text", JList [text_run "buy"]); ("checked", JBool true)]
           "buy" 1 eq_refl eq_refl eq_refl).
Defined.

Lemma quote_md_witness :
  block_to_md sample_repr sample_alloc (JDict (block_of "quote" [text_run "q"])) 4
  = OK ("> q" ++ nl ++ nl).
Proof.
  exact (quote_md sample_repr sample_alloc (block_of "quote" [text_run "q"])
           [("rich_text", JList [text_run "q"])] "q" 4
           eq_refl eq_refl eq_refl).
Defined.

Lemma code_md_witness :
  block_to_md sample_repr sample_alloc (JDict code_block) 0
  = OK ("```python" ++ nl ++ "x = 1" ++ nl ++ "```" ++ nl ++ nl).
Proof.
  exact (code_md sample_repr sample_alloc code_block
           [("rich_text", JList [text_run "x = 1"]);
            ("language", JStr "python")]
           "x = 1" 0 eq_refl eq_refl eq_refl).
Defined.

Lemma child_page_md_witness :
  block_to_md sample_repr sample_alloc (JDict subpage_block) 2 = OK ("- Sub" ++ nl).
Proof.
  exact (child_page_md sample_repr sample_alloc subpage_block [("title", JStr "Sub")] 2
           eq_refl eq_refl).
Defined.

Lemma block_to_md_indent_witness :
  block_to_md sample_repr sample_alloc (JDict todo_block) 2
  = OK (str_mul "  " 2 ++ "- [x] buy" ++ nl)
  /\ block_to_md sample_repr sample_alloc (JDict code_block) (-1)
     = block_to_md sample_repr sample_alloc (JDict code_block) 0.
Proof.
  split.
  - destruct (proj1 (proj2 (block_to_md_indent sample_repr sample_alloc
                              (JDict todo_block) 2))
                ("- [x] buy" ++ nl) eq_refl) as [H | H].
    + discriminate H.
    + exact H.
  - apply (proj2 (proj2 (block_to_md_indent sample_repr sample_alloc
                           (JDict code_block) (-1)))).
    lia.
Defined.

Lemma block_to_md_line_end_witness :
  "  - [x] buy" ++ nl = "" \/ ends_with_nl ("  - [x] buy" ++ nl).
Proof.
  exact (block_to_md_line_end sample_repr sample_alloc (JDict todo_block) 1 _ eq_refl).
Defined.

Lemma block_to_md_missing_payload_witness :
  block_to_md sample_repr sample_alloc (JDict [("type", JStr "quote")]) 0 = Err KeyError
  /\ block_to_md sample_repr sample_alloc
       (JDict [("type", JStr "to_do"); ("to_do", JNull)]) 0
     = Err AttributeError.
Proof.
  split.
  - apply (proj1 (block_to_md_missing_payload sample_repr sample_alloc
                    [("type", JStr "quote")] "quote" 0 eq_refl
                    (or_intror (or_intror (or_intror (or_intror
                       (or_introl eq_refl))))))).
    reflexivity.
  - apply (proj2 (block_to_md_missing_payload sample_repr sample_alloc
                    [("type", JStr "to_do"); ("to_do", JNull)] "to_do" 0
                    eq_refl
                    (or_intror (or_intror (or_intror (or_introl eq_refl)))))
             JNull eq_refl).
    discriminate.
Defined.

Lemma block_to_md_no_type_witness :
  block_to_md sample_repr sample_alloc (JDict [("id", JStr "b9")]) 0 = Err AttributeError.
Proof.
  apply (block_to_md_no_type sample_repr sample_alloc (JDict [("id", JStr "b9")]) 0).
  discriminate.
Defined.

Lemma get_all_children_failure_witness :
  exists rm',
    get_all_children sample_repr 4 (JStr "P") 100 (mkRemote broken_pages [])
    = Some (Err URLError, rm')
    /\ requests rm'
       = [request sample_repr (JStr "P") 100 JNull;
          request sample_repr (JStr "P") 100 (JStr "c1")].
Proof.
  apply (get_all_children_failure sample_repr 4 (JStr "P") 100
           (mkRemote broken_pages [])
           [page_of [JInt 1] true (JStr "c1")] URLError).
  - cbn. repeat split.
  - reflexivity.
  - reflexivity.
  - cbn. lia.
Defined.

Lemma get_all_children_requests_witness :
  exists cs,
    requests (mkRemote (fun n => three_pages (S (S (S n))))
                [request sample_repr (JStr "P") 100 JNull;
                 request sample_repr (JStr "P") 100 (JStr "c1");
                 request sample_repr (JStr "P") 100 JNull])
    = ([] ++ map (request sample_repr (JStr "P") 100) (JNull :: cs))%list
    /\ request sample_repr (JStr "P") 100 JNull
       = ("GET", endpoint sample_repr (JStr "P") 100).
Proof.
  destruct (get_all_children_requests sample_repr 5 (JStr "P") 100
              (mkRemote three_pages [])
              (OK [JInt 1; JInt 2; JInt 3; JInt 4])
              (mkRemote (fun n => three_pages (S (S (S n))))
                 [request sample_repr (JStr "P") 100 JNull;
                  request sample_repr (JStr "P") 100 (JStr "c1");
                  request sample_repr (JStr "P") 100 JNull])
              eq_refl) as (cs & Hreq & _ & Hfirst & _).
  exists cs. split; [exact Hreq | exact Hfirst].
Defined.

Lemma export_blocks_leaves_witness :
  export_blocks sample_repr sample_alloc 0 [JDict todo_block; JDict code_block]
    ["# T" ++ nl ++ nl] (mkRemote kids_page [])
  = Some (OK ["# T" ++ nl ++ nl; "- [x] buy" ++ nl;
              "```python" ++ nl ++ "x = 1" ++ nl ++ "```" ++ nl ++ nl],
          mkRemote kids_page []).
Proof.
  apply (export_blocks_leaves sample_repr sample_alloc 0
           [JDict todo_block; JDict code_block] ["# T" ++ nl ++ nl]
           ["- [x] buy" ++ nl;
            "```python" ++ nl ++ "x = 1" ++ nl ++ "```" ++ nl ++ nl]
           (mkRemote kids_page [])).
  - repeat constructor.
  - reflexivity.
Defined.

Lemma export_page_no_id_witness :
  export_page sample_repr sample_alloc (list (string * string))
    sample_dirname sample_makedirs sample_write 3
    (JStr "P") (JStr "T") (JStr "out/p.md")
    (mkWorld _ (mkRemote orphan_script []) [])
  = Some (Err KeyError,
          mkWorld _
            (mkRemote (fun n => orphan_script (S n))
               [("GET",
                 "https://api.notion.com/v1/blocks/P/children?page_size=100")])
            []).
Proof.
  apply (export_page_no_id sample_repr sample_alloc
           (list (string * string)) sample_dirname sample_makedirs
           sample_write 3 (JStr "P") (JStr "T") (JStr "out/p.md")
           (mkWorld _ (mkRemote orphan_script []) [])
           [JDict todo_block] [] orphan_block
           (mkRemote (fun n => orphan_script (S n))
              [request sample_repr (JStr "P") 100 JNull])
           (mkRemote (fun n => orphan_script (S n))
              [request sample_repr (JStr "P") 100 JNull])
           ["- [x] buy" ++ nl] ("> q" ++ nl ++ nl)).
  - reflexivity.
  - apply walk_leaf; try reflexivity. apply walk_done.
  - reflexivity.
  - reflexivity.
  - reflexivity.
Defined.

Lemma export_all_bad_entry_witness :
  export_all sample_repr sample_alloc unit (fun p => p) (fun _ f => (OK tt, f))
    (fun _ _ f => (OK tt, f)) 3
    [("P", JDict [("title", JStr "T")])]
    (mkWorld unit (mkRemote kids_page []) tt)
  = Some (Err KeyError, mkWorld unit (mkRemote kids_page []) tt).
Proof.
  apply (proj2 (export_all_bad_entry sample_repr sample_alloc unit (fun p => p)
                  (fun _ f => (OK tt, f)) (fun _ _ f => (OK tt, f)) 3 "P"
                  (JDict [("title", JStr "T")]) []
                  (mkWorld unit (mkRemote kids_page []) tt))
           [("title", JStr "T")] eq_refl).
  right. reflexivity.
Defined.

Lemma main_bad_manifest_witness :
  main sample_repr sample_alloc unit (fun p => p) (fun _ f => (OK tt, f))
    (fun _ _ f => (OK tt, f)) 3 (Some "secret")
    (mkProcess unit (Some (JList [])) ""
       (mkWorld unit (mkRemote kids_page []) tt))
  = Some (Raised AttributeError,
          mkProcess unit (Some (JList [])) ""
            (mkWorld unit (mkRemote kids_page []) tt)).
Proof.
  apply (proj1 (proj2 (main_bad_manifest sample_repr sample_alloc unit (fun p => p)
                         (fun _ f => (OK tt, f)) (fun _ _ f => (OK tt, f)) 3
                         "secret"
                         (mkProcess unit (Some (JList [])) ""
                            (mkWorld unit (mkRemote kids_page []) tt))
                         ltac:(discriminate)))
           (JList []) eq_refl).
  discriminate.
Defined.

Lemma export_page_writes_witness :
  exists body,
    sample_write "out/p.md" (body ++ nl) []
    = (OK tt, [("out/p.md", "# T" ++ nl ++ nl ++ "kid" ++ nl)])
    /\ rstrip body = body
    /\ prefix "#" body = true.
Proof.
  destruct (export_page_writes sample_repr sample_alloc (list (string * string))
              sample_dirname sample_makedirs sample_write 3
              (JStr "P") (JStr "T") (JStr "out/p.md")
              (mkWorld _ (mkRemote kids_page []) [])
              (mkWorld _ (mkRemote (fun n => kids_page (S n))
                            [request sample_repr (JStr "P") 100 JNull])
                 [("out/p.md", "# T" ++ nl ++ nl ++ "kid" ++ nl)])
              eq_refl)
    as (blocks & rm1 & out & p & f1 & body & _ & _ & Hp & Hm & Hw & _ & Hb
        & Hpre).
  injection Hp as <-. injection Hm as <-.
  exists body. split; [exact Hw | split; [exact Hb | exact Hpre]].
Defined.

Lemma export_page_failure_witness :
  export_page sample_repr sample_alloc (list (string * string))
    sample_dirname sample_makedirs sample_write 3
    (JStr "P") (JStr "T") (JStr "out/p.md")
    (mkWorld _ (mkRemote (fun _ => Err URLError) []) [])
  = Some (Err URLError,
          mkWorld _
            (mkRemote (fun _ => Err URLError)
               [("GET",
                 "https://api.notion.com/v1/blocks/P/children?page_size=100")])
            []).
Proof.
  exact (proj1 (export_page_failure sample_repr sample_alloc
                  (list (string * string)) sample_dirname sample_makedirs
                  sample_write 3 (JStr "P") (JStr "T") (JStr "out/p.md")
                  (mkWorld _ (mkRemote (fun _ => Err URLError) []) []))
           URLError _ eq_refl).
Defined.
